(** * EcohydroLib: the spatial-data utility layer

    A shallow embedding of [ecohydrolib/spatialdata/utils.py] (and of the
    older [ecohydroworkflowlib/spatialdata/utils.py] where the two differ).

    Conventions of the embedding.
    - Python floats are embedded as rationals [Q] with exact arithmetic;
      comparisons are the boolean comparisons of [Q].  Rounding, infinities
      and NaN are outside the model; the concrete inputs used below are
      dyadic rationals, on which the float computation takes the same
      branches and gives the same values.
    - A function that can raise returns [Result]; the exception is kept with
      its Python class.
    - Libraries that are not part of the repository (pyproj, GDAL/OGR, the
      operating system) appear as type-class parameters. *)

From Stdlib Require Import QArith Qround Qabs ZArith List String Ascii Bool Lia Lqa.
From Stdlib Require Import DecimalString.
From Stdlib Require DecimalPos DecimalZ.
Import ListNotations.
Local Open Scope string_scope.
Local Open Scope Q_scope.

(* ================================================================= *)
(** ** Exceptions and results *)

Inductive Errno : Type := EACCES | ENOTDIR.

Inductive PyError : Type :=
| AssertionError
| NameError (name : string)
| IndexError
| AttributeError
| ValueError (msg : string)
| IOError (code : Errno) (msg : string)
| NoSectionError (section : string)
| NoOptionError (opt : string)
| TypeError
| Exception (msg : string).

(** The outcome of a call: a value or a raised exception. *)
Inductive Result (A : Type) : Type :=
| Ok (a : A)
| Raise (e : PyError).

Arguments Ok {A} a.
Arguments Raise {A} e.

Definition bind {A B : Type} (r : Result A) (k : A -> Result B) : Result B :=
  match r with
  | Ok a => k a
  | Raise e => Raise e
  end.

Notation "x <- r ;; k" := (bind r (fun x => k))
  (at level 61, r at next level, right associativity).
Notation "r ;;; k" := (bind r (fun _ => k))
  (at level 61, right associativity).

(** The one-character string holding a double quote. *)
Definition dquote : string := String (ascii_of_nat 34) EmptyString.

(** [assert(c)] *)
Definition assert (c : bool) : Result unit :=
  if c then Ok tt else Raise AssertionError.

Definition is_ok {A : Type} (r : Result A) : bool :=
  match r with Ok _ => true | Raise _ => false end.

(* ================================================================= *)
(** ** Float comparisons *)

Definition Qlt_bool (x y : Q) : bool := negb (Qle_bool y x).
Definition Qgt_bool (x y : Q) : bool := Qlt_bool y x.
Definition Qge_bool (x y : Q) : bool := Qle_bool y x.

Infix "<?" := Qlt_bool (at level 70) : Q_scope.
Infix "<=?" := Qle_bool (at level 70) : Q_scope.
Infix ">?" := Qgt_bool (at level 70) : Q_scope.
Infix ">=?" := Qge_bool (at level 70) : Q_scope.

(* ================================================================= *)
(** ** Module constants *)

Definition SHP_MINX : nat := 0.
Definition SHP_MAXX : nat := 1.
Definition SHP_MINY : nat := 2.
Definition SHP_MAXY : nat := 3.

Definition RASTER_RESAMPLE_METHOD : list string :=
  ["near"; "bilinear"; "cubic"; "cubicspline"; "lanczos"; "average"; "mode"].
Definition WGS84_EPSG : Z := 4326.
Definition WGS84_EPSG_STR : string := "EPSG:4326".

(* ================================================================= *)
(** ** Bounding boxes

    The dict [{'minX':.., 'minY':.., 'maxX':.., 'maxY':.., 'srs':..}]. *)

Record BoundingBox : Type := mkBBox {
  minX : Q;
  minY : Q;
  maxX : Q;
  maxY : Q;
  srs : string
}.

(** The invariant the data model asks of a box. *)
Definition ordered (b : BoundingBox) : Prop :=
  minX b <= maxX b /\ minY b <= maxY b.

Definition is_digit (c : ascii) : bool :=
  let n := nat_of_ascii c in (48 <=? n)%nat && (n <=? 57)%nat.

Fixpoint all_digits (s : string) : bool :=
  match s with
  | EmptyString => true
  | String c s' => is_digit c && all_digits s'
  end.

(** A CRS identifier ["EPSG:<code>"]: the prefix followed by one or more
    decimal digits. *)
Definition is_epsg_string (s : string) : bool :=
  match s with
  | String "E" (String "P" (String "S" (String "G" (String ":" code)))) =>
      negb (String.eqb code EmptyString) && all_digits code
  | _ => false
  end.

(** [getEPSGStringForUTMZone] (the ["%d"] rendering of the code is kept
    symbolic: the function returns the EPSG number). *)
Definition getEPSGCodeForUTMZone (zone : Z) (isNorth : bool) : Z :=
  if isNorth then (32600 + zone)%Z else (32700 + zone)%Z.

(** [getUTMZoneFromCoordinates]:
    [zone = int((math.floor((longitude + 180)/6) + 1) % 60)];
    [isNorth] is set only under [latitude > 0]. *)
Definition getUTMZoneFromCoordinates (longitude latitude : Q) : Z * bool :=
  let zone := ((Qfloor ((longitude + 180) / 6) + 1) mod 60)%Z in
  let isNorth := false in
  let isNorth := if latitude >? 0 then true else isNorth in
  (zone, isNorth).

(** [isCoordinatePairInBoundingBox] *)
Definition isCoordinatePairInBoundingBox (bbox : BoundingBox)
    (coordinates : Q * Q) : Result bool :=
  assert (String.eqb (srs bbox) "EPSG:4326") ;;;
  let lon := fst coordinates in
  let lat := snd coordinates in
  if (lon <? minX bbox) || (lon >? maxX bbox) then Ok false
  else if (lat <? minY bbox) || (lat >? maxY bbox) then Ok false
  else Ok true.


(** [bufferBoundingBox] mutates the dict it is given and returns nothing;
    the embedding returns the dict after the call.  The fourth correction
    tests [minY] (the value left by the second correction), as the source
    does. *)
Definition bufferBoundingBox (bbox : BoundingBox) (buffer : Q) : BoundingBox :=
  if buffer >? 0 then
    let minX0 := minX bbox - buffer in
    let minY0 := minY bbox - buffer in
    let maxX0 := maxX bbox + buffer in
    let maxY0 := maxY bbox + buffer in
    let minX1 := if minX0 <? -180 then 360 + minX0 else minX0 in
    let minY1 := if minY0 <? -90 then -90 else minY0 in
    let maxX1 := if maxX0 >? 180 then -360 + maxX0 else maxX0 in
    let maxY1 := if minY1 >? 90 then 90 else maxY0 in
    mkBBox minX1 minY1 maxX1 maxY1 (srs bbox)
  else bbox.

(** The buffer operation as the specification words it: each latitude bound
    is clamped on its own side ([maxY] against 90). *)
Definition bufferBoundingBox_spec (bbox : BoundingBox) (buffer : Q) : BoundingBox :=
  if buffer >? 0 then
    let minX0 := minX bbox - buffer in
    let minY0 := minY bbox - buffer in
    let maxX0 := maxX bbox + buffer in
    let maxY0 := maxY bbox + buffer in
    let minX1 := if minX0 <? -180 then 360 + minX0 else minX0 in
    let minY1 := if minY0 <? -90 then -90 else minY0 in
    let maxX1 := if maxX0 >? 180 then maxX0 - 360 else maxX0 in
    let maxY1 := if maxY0 >? 90 then 90 else maxY0 in
    mkBBox minX1 minY1 maxX1 maxY1 (srs bbox)
  else bbox.

(* ================================================================= *)
(** ** Libraries outside the repository *)

(** A polygon vertex as the dict [{'lat':.., 'lon':..}]. *)
Record LatLon : Type := mkLatLon { lat : Q; lon : Q }.

(** pyproj: [transform(p_in, p_out, x, y)] between two projections named
    by their definition strings, [polygonarea.PolygonArea.Area] on the
    WGS84 ellipsoid (returning [(numPoints, perimeter, area)]) and
    [Geod.fwd(lons, lats, az, dist)] (returning [(lon, lat, backAz)]). *)
Class PyProj : Type := {
  transform : string -> string -> Q -> Q -> Q * Q;
  PolygonArea_Area : list LatLon -> nat * Q * Q;
  Geod_fwd : Q -> Q -> Q -> Q -> Q * Q * Q
}.

(** The Python runtime: [float(s)] on a string, [math.sqrt] on a
    non-negative float, and the ["%f"] rendering of a float. *)
Class PyRuntime : Type := {
  pyfloat : string -> Result Q;
  math_sqrt : Q -> Q;
  format_f : Q -> string
}.

(** The file system as the [os] and [os.path] calls of the module see it. *)
Record FileSystem : Type := mkFS {
  isdir : string -> bool;
  access_R : string -> bool;
  access_W : string -> bool;
  access_X : string -> bool;
  exists_ : string -> bool
}.

(** [os.path.abspath], [os.path.join], and [os.system]: the command run by
    the shell returns a status and may change the file system. *)
Class OSLib : Type := {
  abspath : string -> string;
  path_join : string -> string -> string;
  os_system : string -> FileSystem -> Z * FileSystem
}.

(** The process state threaded through calls that shell out: the file
    system and the commands handed to [os.system] so far, latest first. *)
Record World : Type := mkWorld {
  fs : FileSystem;
  invoked : list string
}.

(** A [ConfigParser] object, through its [get(section, option)]. *)
Definition Config : Type := string -> string -> Result string.

(** *** OGR data sources *)

Inductive OGRFieldType : Type :=
| OFTInteger | OFTIntegerList | OFTReal | OFTRealList | OFTString
| OFTStringList | OFTBinary | OFTDate | OFTTime | OFTDateTime.

Definition OGRFieldType_eqb (a b : OGRFieldType) : bool :=
  match a, b with
  | OFTInteger, OFTInteger | OFTIntegerList, OFTIntegerList
  | OFTReal, OFTReal | OFTRealList, OFTRealList | OFTString, OFTString
  | OFTStringList, OFTStringList | OFTBinary, OFTBinary
  | OFTDate, OFTDate | OFTTime, OFTTime | OFTDateTime, OFTDateTime => true
  | _, _ => false
  end.

Record FieldDefn : Type := mkField {
  GetNameRef : string;
  GetType : OGRFieldType
}.

(** A feature: the envelope of its geometry as the tuple
    [(minX, maxX, minY, maxY)] of [GetEnvelope()], and the [GetX()],
    [GetY()] of its geometry. *)
Record Feature : Type := mkFeature {
  GetEnvelope : list Q;
  GetX : Q;
  GetY : Q
}.

Record Layer : Type := mkLayer {
  GetName : string;
  GetLayerDefn : list FieldDefn;
  ExportToProj4 : string;
  authority : string * string;
  features : list Feature
}.

Definition DataSource : Type := list Layer.

Inductive GeomType : Type := wkbPoint | wkbPolygon.

(** What a shapefile-writing function has put on disk when it returns. *)
Record WrittenShapefile : Type := mkWritten {
  ws_path : string;
  ws_layer : string;
  ws_epsg : Z;
  ws_geom_type : GeomType;
  ws_polygons : list (list (list (Q * Q)))
}.

(** OGR: [ogr.Open] ([None] when the file cannot be opened), the
    evaluation of an attribute filter on a layer ([None] for a non-zero
    status of [SetAttributeFilter], otherwise the features then iterated),
    and the creation calls, each of which may raise (the module switches
    [ogr.UseExceptions()] on) or report failure by its return value. *)
Class OGR : Type := {
  ogr_Open : string -> option DataSource;
  SetAttributeFilter : Layer -> string -> option (list Feature);
  GetDriverByName : string -> bool;
  CreateDataSource : string -> Result bool;
  CreateLayer : string -> Z -> GeomType -> Result bool;
  CreateFeature : list (list (Q * Q)) -> Result Z
}.

(* ================================================================= *)
(** ** The module's global namespace

    Names bound at the top level of [ecohydrolib/spatialdata/utils.py]: the
    imports, the constants and the functions.  ([from osgeo.gdalconst
    import *] adds GDAL's prefixed constants, of which the module uses
    [GA_ReadOnly].)  A name read inside a function that the function does
    not assign is looked up here. *)

Definition module_numbers : list (string * Q) :=
  [("SHP_MINX", 0); ("SHP_MAXX", 1); ("SHP_MINY", 2); ("SHP_MAXY", 3);
   ("WGS84_EPSG", 4326); ("GA_ReadOnly", 0)].

Definition module_names : list string :=
  map fst module_numbers ++
  ["os"; "sys"; "errno"; "sqrt"; "math"; "gdal"; "ogr"; "osr"; "Proj";
   "transform"; "Geod"; "polygonarea"; "RASTER_RESAMPLE_METHOD";
   "WGS84_EPSG_STR"; "_readImageGDAL"; "bboxFromString";
   "getEPSGStringForUTMZone"; "getUTMZoneFromCoordinates";
   "transformCoordinates"; "extractTileFromRasterByRasterExtent";
   "extractTileFromRaster"; "resampleRaster"; "convertGMLToShapefile";
   "deleteShapefile"; "getCoordinatesOfPointsFromShapefile";
   "deleteGeoTiff"; "isCoordinatePairInBoundingBox";
   "calculateBoundingBoxCenter"; "calculateBoundingBoxAreaSqMeters";
   "tileBoundingBox"; "getBoundingBoxForShapefile"; "bufferBoundingBox";
   "getMeterConversionFactorForLinearUnitOfGMLfile";
   "getMeterConversionFactorForLinearUnitOfShapefile";
   "getSpatialReferenceForRaster"; "getDimensionsForRaster";
   "getBoundingBoxForRaster"; "writeBboxPolygonToShapefile";
   "writeCoordinatePairsToPointShapefile"; "copyRasterToGeoTIFF";
   "_transformPixelsToCoordinates"].

Definition bound (name : string) : bool :=
  existsb (String.eqb name) module_names.

(** Reading a global: [NameError] when the name is unbound. *)
Definition load_global (name : string) : Result unit :=
  if bound name then Ok tt else Raise (NameError name).

Fixpoint assoc (name : string) (l : list (string * Q)) : option Q :=
  match l with
  | [] => None
  | (k, v) :: l' => if String.eqb name k then Some v else assoc name l'
  end.

(** Reading a global where a number is needed. *)
Definition load_number (name : string) : Result Q :=
  load_global name ;;;
  match assoc name module_numbers with
  | Some v => Ok v
  | None => Raise TypeError
  end.

(* ================================================================= *)
(** ** Geodesic area and tiling *)

Section Tiling.
Context {pyproj : PyProj} {runtime : PyRuntime}.

(** The vertices handed to the area computation, in the order the source
    lists them. *)
Definition bboxAreaPoints (bbox : BoundingBox) : list LatLon :=
  [ mkLatLon (minY bbox) (minX bbox);
    mkLatLon (minY bbox) (maxX bbox);
    mkLatLon (maxY bbox) (maxX bbox);
    mkLatLon (maxY bbox) (minX bbox) ].

(** [calculateBoundingBoxAreaSqMeters] *)
Definition calculateBoundingBoxAreaSqMeters (bbox : BoundingBox) : Result Q :=
  assert (String.eqb (srs bbox) "EPSG:4326") ;;;
  let points := bboxAreaPoints bbox in
  let '(numPoints, perimeter, area) := PolygonArea_Area points in
  Ok area.

(** The inner loop of [tileBoundingBox]:
    [while minLon < bbox['maxX']: ...].  [geod] and [EAST] are read from
    the module's namespace.  The loops of the embedding take fuel, and
    give [None] when it runs out. *)
Fixpoint tile_columns (fuel : nat) (bbox : BoundingBox)
    (tileSide minLat maxLat minLon : Q) (bboxes : list BoundingBox)
    : option (Result (list BoundingBox)) :=
  if minLon <? maxX bbox then
    match fuel with
    | O => None
    | S fuel' =>
        match load_global "geod" ;;; load_number "EAST" with
        | Raise e => Some (Raise e)
        | Ok EAST =>
            let '(maxLon, lat, backAz) :=
              Geod_fwd minLon maxLat EAST tileSide in
            let bboxes :=
              (bboxes ++ [mkBBox minLon minLat maxLon maxLat "EPSG:4326"])%list in
            tile_columns fuel' bbox tileSide minLat maxLat maxLon bboxes
        end
    end
  else Some (Ok bboxes).

(** The outer loop: [while minLat < bbox['maxY']: ...].  [geod] and
    [NORTH] are read from the module's namespace. *)
Fixpoint tile_rows (fuel : nat) (bbox : BoundingBox)
    (tileSide minLat minLon : Q) (bboxes : list BoundingBox)
    : option (Result (list BoundingBox)) :=
  if minLat <? maxY bbox then
    match fuel with
    | O => None
    | S fuel' =>
        match load_global "geod" ;;; load_number "NORTH" with
        | Raise e => Some (Raise e)
        | Ok NORTH =>
            let '(lon, maxLat, backAz) :=
              Geod_fwd minLon minLat NORTH tileSide in
            match tile_columns fuel' bbox tileSide minLat maxLat minLon bboxes with
            | None => None
            | Some (Raise e) => Some (Raise e)
            | Some (Ok bboxes) =>
                tile_rows fuel' bbox tileSide maxLat (minX bbox) bboxes
            end
        end
    end
  else Some (Ok bboxes).

(** [tileBoundingBox] (the two messages written to [sys.stderr] are left
    out).  [sqrt] is [math.sqrt], which raises on a negative argument. *)
Definition tileBoundingBox (fuel : nat) (bbox : BoundingBox) (threshold : Q)
    : option (Result (list BoundingBox)) :=
  match assert (String.eqb (srs bbox) "EPSG:4326") ;;;
        calculateBoundingBoxAreaSqMeters bbox with
  | Raise e => Some (Raise e)
  | Ok area =>
      let bboxes := [] in
      if area <=? threshold then
        Some (Ok (bboxes ++ [bbox])%list)
      else
        if threshold <? 0 then Some (Raise (ValueError "math domain error"))
        else
          let tileSide := math_sqrt threshold in
          let minLat := minY bbox in
          let minLon := minX bbox in
          tile_rows fuel bbox tileSide minLat minLon bboxes
  end.
End Tiling.

(* ================================================================= *)
(** ** Shapefile extent *)

Section ShapefileExtent.
Context {pyproj : PyProj} {ogr : OGR}.

(** [poEnvelope[i]] *)
Definition envelope_get (poEnvelope : list Q) (i : nat) : Result Q :=
  match nth_error poEnvelope i with
  | Some v => Ok v
  | None => Raise IndexError
  end.

(** The running extent [(minX, minY, maxX, maxY)] after one feature. *)
Definition extent_step (p_in p_out : string) (acc : Q * Q * Q * Q)
    (poFeature : Feature) : Result (Q * Q * Q * Q) :=
  let '(minX, minY, maxX, maxY) := acc in
  let poEnvelope := GetEnvelope poFeature in
  e_minX <- envelope_get poEnvelope SHP_MINX ;;
  e_minY <- envelope_get poEnvelope SHP_MINY ;;
  let '(tmpMinX, tmpMinY) := transform p_in p_out e_minX e_minY in
  e_maxX <- envelope_get poEnvelope SHP_MAXX ;;
  e_maxY <- envelope_get poEnvelope SHP_MAXY ;;
  let '(tmpMaxX, tmpMaxY) := transform p_in p_out e_maxX e_maxY in
  let minX := if tmpMinX <? minX then tmpMinX else minX in
  let minY := if tmpMinY <? minY then tmpMinY else minY in
  let maxX := if tmpMaxX >? maxX then tmpMaxX else maxX in
  let maxY := if tmpMaxY >? maxY then tmpMaxY else maxY in
  Ok (minX, minY, maxX, maxY).

(** [while poFeature is not None: ...] over the features of the layer. *)
Fixpoint extent_loop (p_in p_out : string) (acc : Q * Q * Q * Q)
    (fts : list Feature) : Result (Q * Q * Q * Q) :=
  match fts with
  | [] => Ok acc
  | poFeature :: rest =>
      acc' <- extent_step p_in p_out acc poFeature ;;
      extent_loop p_in p_out acc' rest
  end.

(** The values the running extent starts from. *)
Definition extent_seed : Q * Q * Q * Q := (0, 90, -180, 0).

(** The part shared by the two versions: open the data source, take its
    first layer and accumulate the extent of its features. *)
Definition shapefileExtent (shapefileName : string) : Result BoundingBox :=
  match ogr_Open shapefileName with
  | None => Raise AttributeError
  | Some poDS =>
      assert (0 <? List.length poDS)%nat ;;;
      match poDS with
      | [] => Raise AssertionError
      | poLayer :: _ =>
          let srs_proj4 := ExportToProj4 poLayer in
          let p_in := srs_proj4 in
          let p_out := "EPSG:4326" in
          acc <- extent_loop p_in p_out extent_seed (features poLayer) ;;
          let '(minX, minY, maxX, maxY) := acc in
          Ok (mkBBox minX minY maxX maxY "EPSG:4326")
      end
  end.

(** [ecohydrolib.spatialdata.utils.getBoundingBoxForShapefile] *)
Definition getBoundingBoxForShapefile (shapefileName : string) (buffer : Q)
    : Result BoundingBox :=
  assert (buffer >=? 0) ;;;
  bbox <- shapefileExtent shapefileName ;;
  let bbox := bufferBoundingBox bbox buffer in
  Ok bbox.

(** [ecohydroworkflowlib.spatialdata.utils.getBoundingBoxForShapefile]:
    no buffer. *)
Definition getBoundingBoxForShapefile_workflowlib (shapefileName : string)
    : Result BoundingBox :=
  shapefileExtent shapefileName.
End ShapefileExtent.

(* ================================================================= *)
(** ** Coordinates of identified points *)

Section PointCoordinates.
Context {pyproj : PyProj} {ogr : OGR}.

(** The search for the type of the ID field:
    [idAttrType = ogr.OFTString], replaced by the type of the first
    field named [pointIDAttr]. *)
Fixpoint idAttrTypeOf (pointIDAttr : string) (fields : list FieldDefn)
    : OGRFieldType :=
  match fields with
  | [] => OFTString
  | poFieldDef :: rest =>
      if String.eqb pointIDAttr (GetNameRef poFieldDef)
      then GetType poFieldDef
      else idAttrTypeOf pointIDAttr rest
  end.

(** [for point in pointIDs[1:]:
       whereFilter = "%s and %s=%s" % (whereFilter, pointIDAttr, point)] *)
Fixpoint extendFilter (whereFilter pointIDAttr : string) (rest : list string)
    : string :=
  match rest with
  | [] => whereFilter
  | point :: rest' =>
      extendFilter (whereFilter ++ " and " ++ pointIDAttr ++ "=" ++ point)
                   pointIDAttr rest'
  end.

(** The query string built from the requested IDs. *)
Definition buildWhereFilter (idAttrType : OGRFieldType)
    (pointIDAttr : string) (pointIDs : list string) : Result string :=
  assert (0 <? List.length pointIDs)%nat ;;;
  match pointIDs with
  | [] => Raise IndexError
  | first :: rest =>
      if OGRFieldType_eqb OFTString idAttrType then
        let whereFilter := pointIDAttr ++ "='" ++ first ++ "'" in
        Ok (extendFilter whereFilter pointIDAttr rest)
      else
        let whereFilter := pointIDAttr ++ "=" ++ first in
        Ok (extendFilter whereFilter pointIDAttr rest)
  end.

Fixpoint GetLayerByName (poDS : DataSource) (layerName : string)
    : option Layer :=
  match poDS with
  | [] => None
  | l :: rest =>
      if String.eqb (GetName l) layerName then Some l
      else GetLayerByName rest layerName
  end.

(** [getCoordinatesOfPointsFromShapefile] *)
Definition getCoordinatesOfPointsFromShapefile (files : FileSystem)
    (shpFilepath layerName pointIDAttr : string) (pointIDs : list string)
    : Result (list (Q * Q)) :=
  if negb (access_R files shpFilepath) then
    Raise (IOError EACCES ("Unable to read shapefile " ++ shpFilepath))
  else
  match ogr_Open shpFilepath with
  | None => Raise AttributeError
  | Some poDS =>
    assert (0 <? List.length poDS)%nat ;;;
    match GetLayerByName poDS layerName with
    | None =>
        Raise (Exception ("Layer named '" ++ layerName
                          ++ "' not found in shapefile " ++ shpFilepath))
    | Some poLayer =>
        let poFeatureDef := GetLayerDefn poLayer in
        let idAttrType := idAttrTypeOf pointIDAttr poFeatureDef in
        whereFilter <- buildWhereFilter idAttrType pointIDAttr pointIDs ;;
        let epsgStr := fst (authority poLayer) ++ ":" ++ snd (authority poLayer) in
        let isWGS84 := String.eqb WGS84_EPSG_STR epsgStr in
        let p_in := ExportToProj4 poLayer in
        let p_out := "EPSG:4326" in
        match SetAttributeFilter poLayer whereFilter with
        | None =>
            Raise (Exception ("Feature identified by " ++ dquote ++ whereFilter
                              ++ dquote ++ " not found in layer '" ++ layerName
                              ++ "' of shapefile " ++ shpFilepath))
        | Some selected =>
            let coordinates :=
              map (fun poFeature =>
                     let x := GetX poFeature in
                     let y := GetY poFeature in
                     if negb isWGS84 then transform p_in p_out x y
                     else (x, y))
                  selected in
            if (List.length coordinates =? 0)%nat then
              Raise (Exception ("No features identified by " ++ dquote ++ whereFilter
                                ++ dquote ++ " not found in layer '" ++ layerName
                                ++ "' of shapefile " ++ shpFilepath))
            else Ok coordinates
        end
    end
  end.

(** The filter as the specification words it: one equality per requested
    ID, joined by [and], every value quoted when the attribute is
    string-typed and none otherwise. *)
Definition filterTerm (idAttrType : OGRFieldType) (pointIDAttr value : string)
    : string :=
  if OGRFieldType_eqb OFTString idAttrType
  then pointIDAttr ++ "='" ++ value ++ "'"
  else pointIDAttr ++ "=" ++ value.

Fixpoint joinAnd (terms : list string) : string :=
  match terms with
  | [] => EmptyString
  | [t] => t
  | t :: rest => t ++ " and " ++ joinAnd rest
  end.

Definition whereFilter_spec (idAttrType : OGRFieldType)
    (pointIDAttr : string) (pointIDs : list string) : string :=
  joinAnd (map (filterTerm idAttrType pointIDAttr) pointIDs).
End PointCoordinates.

(* ================================================================= *)
(** ** The wire form of a bounding box *)

(** Whitespace of [str.split()]: space, tab, line feed, vertical tab, form
    feed, carriage return. *)
Definition is_space (c : ascii) : bool :=
  let n := nat_of_ascii c in
  (n =? 32)%nat || ((9 <=? n)%nat && (n <=? 13)%nat).

(** [s.split()]: the maximal runs of non-whitespace characters. *)
Fixpoint split_from (s : string) (cur : option string) : list string :=
  match s with
  | EmptyString =>
      match cur with Some t => [t] | None => [] end
  | String c s' =>
      if is_space c then
        match cur with
        | Some t => t :: split_from s' None
        | None => split_from s' None
        end
      else
        let t := match cur with
                 | Some t => t ++ String c EmptyString
                 | None => String c EmptyString
                 end in
        split_from s' (Some t)
  end.

Definition split (s : string) : list string := split_from s None.

(** [l[i]] on a list of strings. *)
Definition item (l : list string) (i : nat) : Result string :=
  match nth_error l i with
  | Some v => Ok v
  | None => Raise IndexError
  end.

Section WireForm.
Context {runtime : PyRuntime}.

(** [bboxFromString]: the four numbers are converted in order and stored
    as they come. *)
Definition bboxFromString (bboxStr : string) : Result BoundingBox :=
  let bbox := split bboxStr in
  s0 <- item bbox 0 ;; f0 <- pyfloat s0 ;;
  s1 <- item bbox 1 ;; f1 <- pyfloat s1 ;;
  s2 <- item bbox 2 ;; f2 <- pyfloat s2 ;;
  s3 <- item bbox 3 ;; f3 <- pyfloat s3 ;;
  Ok (mkBBox f0 f1 f2 f3 "EPSG:4326").
End WireForm.

(* ================================================================= *)
(** ** Resampling a raster and writing a bounding-box polygon *)

(** [if not c: raise e] *)
Definition raise_unless (c : bool) (e : PyError) : Result unit :=
  if c then Ok tt else Raise e.

Section FileOperations.
Context {oslib : OSLib} {runtime : PyRuntime} {ogr : OGR}.

(** The checks of [resampleRaster] up to and including the computation of
    the output path, in the order of the source.  [trX] and [trY] are
    floats already, so [float(trX)] and [float(trY)] return them. *)
Definition resampleRaster_checks (config : Config) (files : FileSystem)
    (outputDir outRasterFilename : string) (trX trY : Q)
    (resampleMethod : string) : Result (string * string) :=
  gdalCmdPath <- config "GDAL/OGR" "PATH_OF_GDAL_WARP" ;;
  raise_unless (access_X files gdalCmdPath)
    (IOError EACCES ("The gdalwarp binary at " ++ gdalCmdPath
                     ++ " is not executable")) ;;;
  let gdalCmdPath := abspath gdalCmdPath in
  raise_unless (isdir files outputDir)
    (IOError ENOTDIR ("Output directory " ++ outputDir
                      ++ " is not a directory")) ;;;
  raise_unless (access_W files outputDir)
    (IOError EACCES ("Not allowed to write to output directory "
                     ++ outputDir)) ;;;
  let outputDir := abspath outputDir in
  raise_unless (negb (trX <=? 0)) (ValueError "trX must be > 0.0") ;;;
  raise_unless (negb (trY <=? 0)) (ValueError "trY must be > 0.0") ;;;
  assert (existsb (String.eqb resampleMethod) RASTER_RESAMPLE_METHOD) ;;;
  let outRasterFilepath := path_join outputDir outRasterFilename in
  Ok (gdalCmdPath, outRasterFilepath).

(** The [gdalwarp] command line. *)
Definition resampleRaster_command (gdalCmdPath : string)
    (s_srs : option string) (t_srs : string) (trX trY : Q)
    (resampleMethod inRasterFilepath outRasterFilepath : string) : string :=
  match s_srs with
  | None =>
      gdalCmdPath ++ " -q -t_srs " ++ t_srs
      ++ " -tr " ++ format_f trX ++ " " ++ format_f trY
      ++ " -r " ++ resampleMethod ++ " -of GTiff -co 'COMPRESS=LZW' "
      ++ inRasterFilepath ++ " " ++ outRasterFilepath
  | Some s_srs =>
      gdalCmdPath ++ " -q -s_srs " ++ s_srs ++ " -t_srs " ++ t_srs
      ++ " -tr " ++ format_f trX ++ " " ++ format_f trY
      ++ " -r " ++ resampleMethod ++ " -of GTiff -co 'COMPRESS=LZW' "
      ++ inRasterFilepath ++ " " ++ outRasterFilepath
  end.

(** [resampleRaster] of [ecohydrolib], as a transition of the world. *)
Definition resampleRaster (config : Config)
    (outputDir inRasterFilepath outRasterFilename : string)
    (s_srs : option string) (t_srs : string) (trX trY : Q)
    (resampleMethod : string) (w : World) : Result unit * World :=
  match resampleRaster_checks config (fs w) outputDir outRasterFilename
          trX trY resampleMethod with
  | Raise e => (Raise e, w)
  | Ok (gdalCmdPath, outRasterFilepath) =>
      if negb (exists_ (fs w) outRasterFilepath) then
        let gdalCommand :=
          resampleRaster_command gdalCmdPath s_srs t_srs trX trY
            resampleMethod inRasterFilepath outRasterFilepath in
        let '(returnCode, files') := os_system gdalCommand (fs w) in
        let w' := mkWorld files' (gdalCommand :: invoked w) in
        if negb (returnCode =? 0)%Z then
          (Raise (Exception ("GDAL command " ++ gdalCommand ++ " failed.")), w')
        else (Ok tt, w')
      else (Ok tt, w)
  end.

(** [os.extsep] *)
Definition extsep : string := ".".

(** [ring.AddPoint(x, y)]: the vertex goes to the end of the ring. *)
Definition AddPoint (ring : list (Q * Q)) (x y : Q) : list (Q * Q) :=
  (ring ++ [(x, y)])%list.

(** The ring built by [writeBboxPolygonToShapefile]. *)
Definition bboxRing (bbox : BoundingBox) : list (Q * Q) :=
  let ring := [] in
  let ring := AddPoint ring (minX bbox) (minY bbox) in
  let ring := AddPoint ring (minX bbox) (maxY bbox) in
  let ring := AddPoint ring (maxX bbox) (maxY bbox) in
  let ring := AddPoint ring (maxX bbox) (minY bbox) in
  ring.

(** [writeBboxPolygonToShapefile]: the name of the shapefile together
    with what was written. *)
Definition writeBboxPolygonToShapefile (files : FileSystem)
    (bbox : BoundingBox) (outputDir layerName : string)
    : Result (string * WrittenShapefile) :=
  let pszDriverName := "ESRI Shapefile" in
  let shpFilename := layerName ++ extsep ++ "shp" in
  raise_unless (isdir files outputDir)
    (IOError ENOTDIR ("Output directory " ++ outputDir
                      ++ " is not a directory")) ;;;
  raise_unless (access_W files outputDir)
    (IOError EACCES ("Not allowed to write to output directory "
                     ++ outputDir)) ;;;
  let outputDir := abspath outputDir in
  let shpFilepath := path_join outputDir shpFilename in
  raise_unless (negb (exists_ files shpFilepath))
    (Exception ("Shapefile " ++ shpFilename
                ++ " already exists in directory " ++ outputDir)) ;;;
  let srs := WGS84_EPSG in
  assert (GetDriverByName pszDriverName) ;;;
  hDS <- CreateDataSource shpFilepath ;;
  assert hDS ;;;
  hLayer <- CreateLayer layerName srs wkbPolygon ;;
  assert hLayer ;;;
  let ring := bboxRing bbox in
  let poly := [ring] in
  rc <- CreateFeature poly ;;
  raise_unless (rc =? 0)%Z
    (Exception "Failed to create shapefile for bounding box") ;;;
  Ok (shpFilename, mkWritten shpFilepath layerName srs wkbPolygon [poly]).
End FileOperations.

(** The ring in the order the specification words it, which is the vertex
    order of [bboxAreaPoints]: SW, SE, NE, NW. *)
Definition bboxRing_spec (bbox : BoundingBox) : list (Q * Q) :=
  map (fun p => (lon p, lat p)) (bboxAreaPoints bbox).

(* ================================================================= *)
(** ** EPSG strings of UTM zones *)

(** The ["%d"] rendering of an integer. *)
Definition format_d (n : Z) : string := NilZero.string_of_int (Z.to_int n).

(** [getEPSGStringForUTMZone] *)
Definition getEPSGStringForUTMZone (zone : Z) (isNorth : bool) : string :=
  let epsg := if isNorth then (32600 + zone)%Z else (32700 + zone)%Z in
  "EPSG:" ++ format_d epsg.

(* ================================================================= *)
(** ** Conversions that shell out *)

Section ShellOperations.
Context {oslib : OSLib}.

(** [os.system(command)] in a world: the command is recorded and the
    files are those the command leaves. *)
Definition run_command (command : string) (w : World) : Z * World :=
  let '(returnCode, files') := os_system command (fs w) in
  (returnCode, mkWorld files' (command :: invoked w)).

(** The checks of [convertGMLToShapefile] and the two names it computes:
    the name of the shapefile and its path. *)
Definition convertGMLToShapefile_checks (config : Config) (files : FileSystem)
    (outputDir layerName : string) : Result (string * string * string) :=
  pathToOgrCmd <- config "GDAL/OGR" "PATH_OF_OGR2OGR" ;;
  raise_unless (isdir files outputDir)
    (IOError ENOTDIR ("Output directory " ++ outputDir
                      ++ " is not a directory")) ;;;
  raise_unless (access_W files outputDir)
    (IOError EACCES ("Not allowed to write to output directory "
                     ++ outputDir)) ;;;
  let outputDir := abspath outputDir in
  let shpFilename := layerName ++ ".shp" in
  let shpFilepath := path_join outputDir shpFilename in
  Ok (pathToOgrCmd, shpFilename, shpFilepath).

(** The [ogr2ogr] command line; the new layer name is a constant of the
    source. *)
Definition convertGMLToShapefile_command
    (pathToOgrCmd t_srs shpFilepath gmlFilepath : string) : string :=
  pathToOgrCmd ++ " -f 'ESRI Shapefile' -nln " ++ "MapunitPolyExtended"
  ++ " -t_srs " ++ t_srs ++ " " ++ shpFilepath ++ " " ++ gmlFilepath.

(** [convertGMLToShapefile] *)
Definition convertGMLToShapefile (config : Config)
    (outputDir gmlFilepath layerName t_srs : string) (w : World)
    : Result string * World :=
  match convertGMLToShapefile_checks config (fs w) outputDir layerName with
  | Raise e => (Raise e, w)
  | Ok (pathToOgrCmd, shpFilename, shpFilepath) =>
      if negb (exists_ (fs w) shpFilepath) then
        let ogrCommand :=
          convertGMLToShapefile_command pathToOgrCmd t_srs shpFilepath
            gmlFilepath in
        let '(returnCode, w') := run_command ogrCommand w in
        if negb (returnCode =? 0)%Z then
          (Raise (Exception ("GML to shapefile command " ++ ogrCommand
                             ++ " returned " ++ format_d returnCode)), w')
        else (Ok shpFilename, w')
      else (Ok shpFilename, w)
  end.

(** The checks of [copyRasterToGeoTIFF].  The message of the last one is
    written as a string applied to a tuple, so the error raised for an
    unreadable input is the [TypeError] of calling a string. *)
Definition copyRasterToGeoTIFF_checks (config : Config) (files : FileSystem)
    (outputDir inRasterPath outRasterName : string)
    : Result (string * string) :=
  gdalCmdPath <- config "GDAL/OGR" "PATH_OF_GDAL_TRANSLATE" ;;
  raise_unless (access_X files gdalCmdPath)
    (IOError EACCES ("The gdal_translate binary at " ++ gdalCmdPath
                     ++ " is not executable")) ;;;
  let gdalCmdPath := abspath gdalCmdPath in
  raise_unless (isdir files outputDir)
    (IOError ENOTDIR ("Output directory " ++ outputDir
                      ++ " is not a directory")) ;;;
  raise_unless (access_W files outputDir)
    (IOError EACCES ("Not allowed to write to output directory "
                     ++ outputDir)) ;;;
  let outputDir := abspath outputDir in
  raise_unless (access_R files inRasterPath) TypeError ;;;
  let outRasterPath := path_join outputDir outRasterName in
  Ok (gdalCmdPath, outRasterPath).

Definition copyRasterToGeoTIFF_command
    (gdalCmdPath inRasterPath outRasterPath : string) : string :=
  gdalCmdPath ++ " -q -of GTiff -co 'COMPRESS=LZW' "
  ++ inRasterPath ++ " " ++ outRasterPath.

(** [copyRasterToGeoTIFF] *)
Definition copyRasterToGeoTIFF (config : Config)
    (outputDir inRasterPath outRasterName : string) (w : World)
    : Result unit * World :=
  match copyRasterToGeoTIFF_checks config (fs w) outputDir inRasterPath
          outRasterName with
  | Raise e => (Raise e, w)
  | Ok (gdalCmdPath, outRasterPath) =>
      let gdalCommand :=
        copyRasterToGeoTIFF_command gdalCmdPath inRasterPath outRasterPath in
      let '(returnCode, w') := run_command gdalCommand w in
      if negb (returnCode =? 0)%Z then
        (Raise (Exception ("GDAL command " ++ gdalCommand ++ " failed.")), w')
      else (Ok tt, w')
  end.
End ShellOperations.

(* ================================================================= *)
(** ** Rasters *)

(** The six coefficients of [GetGeoTransform()]. *)
Record GeoTransform : Type := mkGT {
  gt0 : Q; gt1 : Q; gt2 : Q; gt3 : Q; gt4 : Q; gt5 : Q
}.

(** An open GDAL dataset.  [GetGeoTransform(can_return_null = True)] and
    [GetProjectionRef()] may give [None]. *)
Record RasterDataset : Type := mkRaster {
  RasterXSize : nat;
  RasterYSize : nat;
  GetGeoTransform_or_null : option GeoTransform;
  GetProjectionRef : option string
}.

(** [GetGeoTransform()]: the identity transform when the dataset has
    none. *)
Definition GetGeoTransform (ds : RasterDataset) : GeoTransform :=
  match GetGeoTransform_or_null ds with
  | Some g => g
  | None => mkGT 0 1 0 0 0 1
  end.

(** [GetProjection()]: the empty string when the dataset has none. *)
Definition GetProjection (ds : RasterDataset) : string :=
  match GetProjectionRef ds with
  | Some p => p
  | None => EmptyString
  end.

(** GDAL and OSR: [gdal.Open] ([None] when the file cannot be opened),
    the point transformation from a projection given by its WKT to WGS84,
    and [str] of a float. *)
Class GDAL : Type := {
  gdal_Open : string -> option RasterDataset;
  TransformPoint : string -> Q -> Q -> Q -> Q * Q * Q;
  str_float : Q -> string
}.

(** The dict of [_readImageGDAL]. *)
Record Image : Type := mkImage {
  rows : nat;
  cols : nat;
  trans : GeoTransform;
  image_srs : string
}.

Section Rasters.
Context {oslib : OSLib} {runtime : PyRuntime} {gdal : GDAL}.

(** [_readImageGDAL] *)
Definition _readImageGDAL (filePath : string) : Result Image :=
  match gdal_Open filePath with
  | None => Raise AttributeError
  | Some ds =>
      let cols := RasterXSize ds in
      let rows := RasterYSize ds in
      let trans := GetGeoTransform ds in
      let proj := GetProjection ds in
      Ok (mkImage rows cols trans proj)
  end.

(** The extent [(xmin, ymin, xmax, ymax)] and the resolution that
    [extractTileFromRasterByRasterExtent] takes from the extent raster. *)
Definition targetExtentOf (extentImg : Image) : Q * Q * Q * Q :=
  let targetResX := Qabs (gt1 (trans extentImg)) in
  let targetResY := Qabs (gt5 (trans extentImg)) in
  let xmin := gt0 (trans extentImg) in
  let ymax := gt3 (trans extentImg) in
  let xmax := xmin + targetResX * inject_Z (Z.of_nat (cols extentImg)) in
  let ymin := ymax - targetResY * inject_Z (Z.of_nat (rows extentImg)) in
  (xmin, ymin, xmax, ymax).

(** The [gdalwarp] command line of
    [extractTileFromRasterByRasterExtent]. *)
Definition extractByExtent_command (gdalCmdPath : string)
    (extentImg inImg : Image)
    (resampleMethod inRasterFilepath outRasterFilepath : string) : string :=
  let t_srs := image_srs extentImg in
  let s_srs := image_srs inImg in
  let '(xmin, ymin, xmax, ymax) := targetExtentOf extentImg in
  let targetExtent :=
    str_float xmin ++ " " ++ str_float ymin ++ " "
    ++ str_float xmax ++ " " ++ str_float ymax in
  let targetRes :=
    format_f (Qabs (gt1 (trans extentImg))) ++ " "
    ++ format_f (Qabs (gt5 (trans extentImg))) in
  gdalCmdPath ++ " -s_srs " ++ s_srs ++ " -t_srs " ++ t_srs
  ++ " -te " ++ targetExtent ++ " -tr " ++ targetRes
  ++ " -r " ++ resampleMethod ++ " " ++ inRasterFilepath
  ++ " " ++ outRasterFilepath.

(** The checks of [extractTileFromRasterByRasterExtent], the first of
    which is the assertion on the resampling method. *)
Definition extractByExtent_checks (config : Config) (files : FileSystem)
    (outputDir outRasterFilename resampleMethod : string)
    : Result (string * string) :=
  assert (existsb (String.eqb resampleMethod) RASTER_RESAMPLE_METHOD) ;;;
  gdalCmdPath <- config "GDAL/OGR" "PATH_OF_GDAL_WARP" ;;
  raise_unless (access_X files gdalCmdPath)
    (IOError EACCES ("The gdalwarp binary at " ++ gdalCmdPath
                     ++ " is not executable")) ;;;
  let gdalCmdPath := abspath gdalCmdPath in
  raise_unless (isdir files outputDir)
    (IOError ENOTDIR ("Output directory " ++ outputDir
                      ++ " is not a directory")) ;;;
  raise_unless (access_W files outputDir)
    (IOError EACCES ("Not allowed to write to output directory "
                     ++ outputDir)) ;;;
  let outputDir := abspath outputDir in
  let outRasterFilepath := path_join outputDir outRasterFilename in
  let outRasterFilepath := abspath outRasterFilepath in
  Ok (gdalCmdPath, outRasterFilepath).

(** [extractTileFromRasterByRasterExtent] *)
Definition extractTileFromRasterByRasterExtent (config : Config)
    (outputDir extentRasterFilepath inRasterFilepath outRasterFilename
       resampleMethod : string) (w : World) : Result unit * World :=
  match extractByExtent_checks config (fs w) outputDir outRasterFilename
          resampleMethod with
  | Raise e => (Raise e, w)
  | Ok (gdalCmdPath, outRasterFilepath) =>
      let extentRasterFilepath := abspath extentRasterFilepath in
      let inRasterFilepath := abspath inRasterFilepath in
      if negb (exists_ (fs w) outRasterFilepath) then
        match _readImageGDAL extentRasterFilepath with
        | Raise e => (Raise e, w)
        | Ok extentImg =>
            match _readImageGDAL inRasterFilepath with
            | Raise e => (Raise e, w)
            | Ok inImg =>
                let gdalCommand :=
                  extractByExtent_command gdalCmdPath extentImg inImg
                    resampleMethod inRasterFilepath outRasterFilepath in
                let '(returnCode, w') := run_command gdalCommand w in
                if negb (returnCode =? 0)%Z then
                  (Raise (Exception ("GDAL command " ++ gdalCommand
                                     ++ " failed.")), w')
                else (Ok tt, w')
            end
        end
      else (Ok tt, w)
  end.

(** [_transformPixelsToCoordinates]; [pszProjection] names the projection
    the transformation starts from. *)
Definition _transformPixelsToCoordinates (pszProjection : string)
    (adfGeoTransform : GeoTransform) (x y : Q) : Q * Q :=
  let dfGeoX := gt0 adfGeoTransform + gt1 adfGeoTransform * x
                + gt2 adfGeoTransform * y in
  let dfGeoY := gt3 adfGeoTransform + gt4 adfGeoTransform * x
                + gt5 adfGeoTransform * y in
  let '(c0, c1, _) := TransformPoint pszProjection dfGeoX dfGeoY 0 in
  (c0, c1).

(** [getBoundingBoxForRaster] *)
Definition getBoundingBoxForRaster (files : FileSystem) (filename : string)
    : Result BoundingBox :=
  raise_unless (access_R files filename)
    (IOError EACCES ("Not allowed to read DEM " ++ filename
                     ++ " to determine bounding box")) ;;;
  match gdal_Open filename with
  | None => Raise (Exception "Unable to open raster dataset")
  | Some hDataset =>
      match GetProjectionRef hDataset with
      | None => Raise AssertionError
      | Some pszProjection =>
          match GetGeoTransform_or_null hDataset with
          | None => Raise AssertionError
          | Some adfGeoTransform =>
              let '(minX, maxY) :=
                _transformPixelsToCoordinates pszProjection adfGeoTransform
                  0 0 in
              let '(maxX, minY) :=
                _transformPixelsToCoordinates pszProjection adfGeoTransform
                  (inject_Z (Z.of_nat (RasterXSize hDataset)))
                  (inject_Z (Z.of_nat (RasterYSize hDataset))) in
              Ok (mkBBox minX minY maxX maxY "EPSG:4326")
          end
      end
  end.

(** [getDimensionsForRaster]: [(columns, rows)], both [None] when the
    dataset cannot be opened. *)
Definition getDimensionsForRaster (files : FileSystem) (filename : string)
    : Result (option nat * option nat) :=
  raise_unless (access_R files filename)
    (IOError EACCES ("Not allowed to read DEM " ++ filename
                     ++ " to read number of columns and rows")) ;;;
  match gdal_Open filename with
  | Some hDataset => Ok (Some (RasterXSize hDataset), Some (RasterYSize hDataset))
  | None => Ok (None, None)
  end.
End Rasters.

(* ================================================================= *)
(** ** Deleting artifacts *)

(** [s.rfind(c)]: the last index of [c] in [s], or [-1]. *)
Fixpoint rfind_from (c : ascii) (s : string) (i found : Z) : Z :=
  match s with
  | EmptyString => found
  | String a s' =>
      rfind_from c s' (i + 1)%Z (if Ascii.eqb a c then i else found)
  end.

Definition rfind (c : ascii) (s : string) : Z := rfind_from c s 0%Z (-1)%Z.

Fixpoint has_non_dot (s : string) : bool :=
  match s with
  | EmptyString => false
  | String a s' => negb (Ascii.eqb a ".") || has_non_dot s'
  end.

(** [os.path.splitext(p)] on POSIX: the extension starts at the last dot
    of the last path component, leading dots of the component apart. *)
Definition splitext (p : string) : string * string :=
  let sepIndex := rfind "/" p in
  let dotIndex := rfind "." p in
  if (sepIndex <? dotIndex)%Z then
    let filenameIndex := Z.to_nat (sepIndex + 1) in
    if has_non_dot (substring filenameIndex (Z.to_nat dotIndex - filenameIndex) p)
    then (substring 0 (Z.to_nat dotIndex) p,
          substring (Z.to_nat dotIndex)
                    (String.length p - Z.to_nat dotIndex) p)
    else (p, EmptyString)
  else (p, EmptyString).

(** Whether [os.remove(path)] succeeds on an existing path. *)
Class Unlink : Type := { removable : string -> bool }.

(** A deletion ends with the files left or with the [OSError] of an
    [os.remove] that failed. *)
Inductive Deletion : Type :=
| Deleted (files : FileSystem)
| OSError (path : string).

Section Deleting.
Context {unlink : Unlink}.

(** [os.remove(p)] *)
Definition os_remove (files : FileSystem) (p : string) : Deletion :=
  if removable p then
    Deleted {| isdir := isdir files;
               access_R := fun q => negb (String.eqb q p) && access_R files q;
               access_W := fun q => negb (String.eqb q p) && access_W files q;
               access_X := fun q => negb (String.eqb q p) && access_X files q;
               exists_ := fun q => negb (String.eqb q p) && exists_ files q |}
  else OSError p.

(** [if os.path.exists(p): os.remove(p)] *)
Definition remove_if_exists (files : FileSystem) (p : string) : Deletion :=
  if exists_ files p then os_remove files p else Deleted files.

(** [for ext in exts: ...]: the companion files, in order. *)
Fixpoint remove_companions (files : FileSystem) (fileName : string)
    (exts : list string) : Deletion :=
  match exts with
  | [] => Deleted files
  | ext :: rest =>
      let tmpFilepath := fileName ++ "." ++ ext in
      match remove_if_exists files tmpFilepath with
      | Deleted files' => remove_companions files' fileName rest
      | OSError p => OSError p
      end
  end.

(** [deleteShapefile] *)
Definition deleteShapefile (files : FileSystem) (shpfilePath : string)
    : Deletion :=
  let SHP_EXT := ["dbf"; "prj"; "shx"] in
  let fileName := fst (splitext shpfilePath) in
  match remove_if_exists files shpfilePath with
  | Deleted files' => remove_companions files' fileName SHP_EXT
  | OSError p => OSError p
  end.

(** [deleteGeoTiff] *)
Definition deleteGeoTiff (files : FileSystem) (geoTiffPath : string)
    : Deletion :=
  let GTIFF_EXT := ["tif.aux.xml"] in
  let fileName := fst (splitext geoTiffPath) in
  match remove_if_exists files geoTiffPath with
  | Deleted files' => remove_companions files' fileName GTIFF_EXT
  | OSError p => OSError p
  end.
End Deleting.

(** The paths [deleteShapefile] and [deleteGeoTiff] may remove. *)
Definition shapefile_group (shpfilePath : string) : list string :=
  let fileName := fst (splitext shpfilePath) in
  [shpfilePath; fileName ++ ".dbf"; fileName ++ ".prj"; fileName ++ ".shx"].

Definition geotiff_group (geoTiffPath : string) : list string :=
  [geoTiffPath; fst (splitext geoTiffPath) ++ ".tif.aux.xml"].

(* ================================================================= *)
(** ** Writing a point shapefile *)

(** What [writeCoordinatePairsToPointShapefile] has put on disk: a point
    layer with one string field and one feature per point. *)
Record WrittenPoints : Type := mkWrittenPoints {
  wp_path : string;
  wp_layer : string;
  wp_epsg : Z;
  wp_field : string;
  wp_width : nat;
  wp_points : list (string * (Q * Q))
}.

(** The two OGR calls particular to point layers: the creation of the ID
    field of a given width and the creation of a point feature with its ID
    value, each returning a status. *)
Class OGRPoints : Type := {
  CreateField : string -> OGRFieldType -> nat -> Result Z;
  CreatePointFeature : string -> string -> Q -> Q -> Result Z
}.

Section PointShapefile.
Context {oslib : OSLib} {ogr : OGR} {ogrpoints : OGRPoints}.

(** [l[i]] on a list of coordinate pairs. *)
Definition pair_item (l : list (Q * Q)) (i : nat) : Result (Q * Q) :=
  match nth_error l i with
  | Some v => Ok v
  | None => Raise IndexError
  end.

(** [while i < numCoord: ...], with [todo = numCoord - i] iterations
    left. *)
Fixpoint point_loop (todo i : nat) (pointIDAttr : string)
    (pointIDs : list string) (coordinates : list (Q * Q))
    (written : list (string * (Q * Q))) : Result (list (string * (Q * Q))) :=
  match todo with
  | O => Ok written
  | S todo' =>
      c <- pair_item coordinates i ;;
      let x := fst c in
      let y := snd c in
      id <- item pointIDs i ;;
      rc <- CreatePointFeature pointIDAttr id x y ;;
      assert (rc =? 0)%Z ;;;
      point_loop todo' (S i) pointIDAttr pointIDs coordinates
        (written ++ [(id, (x, y))])%list
  end.

(** [writeCoordinatePairsToPointShapefile] *)
Definition writeCoordinatePairsToPointShapefile (files : FileSystem)
    (outputDir layerName pointIDAttr : string) (pointIDs : list string)
    (coordinates : list (Q * Q)) : Result (string * WrittenPoints) :=
  let pszDriverName := "ESRI Shapefile" in
  let shpFilename := layerName ++ "." ++ "shp" in
  let numCoord := List.length coordinates in
  assert (List.length pointIDs =? numCoord)%nat ;;;
  raise_unless (isdir files outputDir)
    (IOError ENOTDIR ("Output directory " ++ outputDir
                      ++ " is not a directory")) ;;;
  raise_unless (access_W files outputDir)
    (IOError EACCES ("Not allowed to write to output directory "
                     ++ outputDir)) ;;;
  let outputDir := abspath outputDir in
  let shpFilepath := path_join outputDir shpFilename in
  raise_unless (negb (exists_ files shpFilepath))
    (Exception ("Shapefile " ++ shpFilename
                ++ " already exists in directory " ++ outputDir)) ;;;
  let srs := WGS84_EPSG in
  assert (GetDriverByName pszDriverName) ;;;
  hDS <- CreateDataSource shpFilepath ;;
  assert hDS ;;;
  hLayer <- CreateLayer layerName srs wkbPoint ;;
  assert hLayer ;;;
  rcField <- CreateField pointIDAttr OFTString 32 ;;
  assert (rcField =? 0)%Z ;;;
  points <- point_loop numCoord 0 pointIDAttr pointIDs coordinates [] ;;
  Ok (shpFilename,
      mkWrittenPoints shpFilepath layerName srs pointIDAttr 32 points).
End PointShapefile.

(* ================================================================= *)
(** ** Tokens of the wire form *)

Fixpoint no_space (s : string) : bool :=
  match s with
  | EmptyString => true
  | String c s' => negb (is_space c) && no_space s'
  end.

(** A token: a non-empty string free of whitespace. *)
Definition is_token (s : string) : bool :=
  no_space s && negb (String.eqb s EmptyString).

(* ================================================================= *)
(** ** Stand-ins for the outside libraries

    Small executable instances of the interfaces above, on which the
    definitions can be run. *)

(** A decimal literal [[+-]digits[.digits]] read as a rational; any other
    spelling is refused. *)
Fixpoint read_digits (s : string) (acc : Z) (count : nat) : Z * nat * string :=
  match s with
  | String c s' =>
      if is_digit c
      then read_digits s' (10 * acc + Z.of_nat (nat_of_ascii c - 48))%Z (S count)
      else (acc, count, s)
  | EmptyString => (acc, count, s)
  end.

Definition decimal_literal (s : string) : Result Q :=
  let '(negative, body) :=
    match s with
    | String "-" r => (true, r)
    | String "+" r => (false, r)
    | _ => (false, s)
    end in
  let '(ip, ni, rest) := read_digits body 0%Z 0%nat in
  let '(all, nf, rest') :=
    match rest with
    | String "." r => read_digits r ip 0%nat
    | _ => (ip, 0%nat, rest)
    end in
  match rest' with
  | EmptyString =>
      if (ni + nf =? 0)%nat
      then Raise (ValueError ("could not convert string to float: " ++ s))
      else Ok (Qmake (if negative then - all else all)
                     (Z.to_pos (10 ^ Z.of_nat nf)))
  | _ => Raise (ValueError ("invalid literal for float(): " ++ s))
  end.

(** The digits of a natural number below [10 ^ width], left-padded. *)
Fixpoint digits_of (width : nat) (n : Z) : string :=
  match width with
  | O => EmptyString
  | S w =>
      digits_of w (n / 10)%Z
      ++ String (ascii_of_nat (48 + Z.to_nat (n mod 10)%Z)) EmptyString
  end.

Fixpoint width_of (fuel : nat) (n : Z) : nat :=
  match fuel with
  | O => 1%nat
  | S f => if (n <? 10)%Z then 1%nat else S (width_of f (n / 10)%Z)
  end.

(** Six decimals, ties to even. *)
Definition fixed6 (q : Q) : string :=
  let x := Qabs q * 1000000 in
  let f := Qfloor x in
  let r := x - inject_Z f in
  let n := if r <? (1 # 2) then f
           else if (1 # 2) <? r then (f + 1)%Z
           else if Z.even f then f else (f + 1)%Z in
  let ip := (n / 1000000)%Z in
  (if (q <? 0) && negb (n =? 0)%Z then "-" else EmptyString)
  ++ digits_of (width_of (Z.to_nat ip) ip) ip ++ "." ++ digits_of 6 (n mod 1000000)%Z.

#[local] Instance decimal_runtime : PyRuntime := {
  pyfloat := decimal_literal;
  math_sqrt := fun x => inject_Z (Z.sqrt (Qfloor x));
  format_f := fixed6
}.

(** Twice the signed planar area of a ring of vertices (the shoelace
    sum), closing the ring on its first vertex. *)
Fixpoint shoelace (first : LatLon) (pts : list LatLon) : Q :=
  match pts with
  | [] => 0
  | [p] => lon p * lat first - lon first * lat p
  | p :: ((q :: _) as rest) => (lon p * lat q - lon q * lat p) + shoelace first rest
  end.

(** A flat earth of 111320 m to the degree: identity reprojection, planar
    polygon area, and steps of [dist] metres along the axes. *)
#[local] Instance planar_pyproj : PyProj := {
  transform := fun _ _ x y => (x, y);
  PolygonArea_Area := fun pts =>
    (List.length pts, 0,
     match pts with
     | [] => 0
     | p :: _ => shoelace p pts / 2 * (111320 * 111320)
     end);
  Geod_fwd := fun lons lats az dist =>
    if Qeq_bool az 90 then (lons + dist / 111320, lats, 270)
    else (lons, lats + dist / 111320, 180)
}.

(** Absolute POSIX paths; a shell in which every command succeeds and
    leaves the files as they are. *)
#[local] Instance posix_oslib : OSLib := {
  abspath := fun p => p;
  path_join := fun d f => d ++ "/" ++ f;
  os_system := fun _ files => (0%Z, files)
}.

(** A project directory [/proj], writable and holding no file, with an
    executable [/usr/bin/gdalwarp]. *)
Definition project_files : FileSystem := {|
  isdir := fun p => String.eqb p "/proj";
  access_R := fun p => String.eqb p "/data/gages.shp";
  access_W := fun p => String.eqb p "/proj";
  access_X := fun p => String.eqb p "/usr/bin/gdalwarp";
  exists_ := fun p => String.eqb p "/usr/bin/gdalwarp" || String.eqb p "/data/gages.shp"
|}.



(** Two data sources: [/data/empty.shp], whose only layer has no feature,
    and [/data/gages.shp], with one point feature; creation calls
    succeed. *)
Definition empty_layer : Layer := {|
  GetName := "empty";
  GetLayerDefn := [];
  ExportToProj4 := "+proj=longlat +datum=WGS84 +no_defs";
  authority := ("EPSG", "4326");
  features := []
|}.

Definition gages_layer : Layer := {|
  GetName := "gages";
  GetLayerDefn := [mkField "gage_id" OFTString];
  ExportToProj4 := "+proj=longlat +datum=WGS84 +no_defs";
  authority := ("EPSG", "4326");
  features := [mkFeature [-77; -77; 39; 39] (-77) 39]
|}.

#[local] Instance sample_ogr : OGR := {
  ogr_Open := fun p =>
    if String.eqb p "/data/empty.shp" then Some [empty_layer]
    else if String.eqb p "/data/gages.shp" then Some [gages_layer]
    else None;
  SetAttributeFilter := fun l _ => Some (features l);
  GetDriverByName := fun n => String.eqb n "ESRI Shapefile";
  CreateDataSource := fun _ => Ok true;
  CreateLayer := fun _ _ _ => Ok true;
  CreateFeature := fun _ => Ok 0%Z
}.

(** A north-up raster of 100 by 50 cells of a hundredth of a degree, already
    in WGS84, whose transformation to WGS84 is the identity. *)
Definition dem_raster : RasterDataset := {|
  RasterXSize := 100;
  RasterYSize := 50;
  GetGeoTransform_or_null := Some (mkGT (-77) (1 # 100) 0 40 0 (-1 # 100));
  GetProjectionRef := Some "GEOGCS[WGS 84]"
|}.

#[local] Instance sample_gdal : GDAL := {
  gdal_Open := fun p =>
    if String.eqb p "/proj/dem.tif" then Some dem_raster else None;
  TransformPoint := fun _ x y z => (x, y, z);
  str_float := fixed6
}.

(** Every existing path may be removed. *)
#[local] Instance permissive_unlink : Unlink := {
  removable := fun _ => true
}.

(** Point layers whose creation calls succeed. *)
#[local] Instance sample_ogrpoints : OGRPoints := {
  CreateField := fun _ _ _ => Ok 0%Z;
  CreatePointFeature := fun _ _ _ _ => Ok 0%Z
}.

(** The project directory holding a raster and a gage shapefile with two of
    its three companions. *)
Definition project_files_with_outputs : FileSystem := {|
  isdir := fun p => String.eqb p "/proj";
  access_R := fun p => String.eqb p "/proj/dem.tif";
  access_W := fun p => String.eqb p "/proj";
  access_X := fun p => String.eqb p "/usr/bin/gdalwarp"
                       || String.eqb p "/usr/bin/gdal_translate";
  exists_ := fun p =>
    existsb (String.eqb p)
      ["/proj/dem.tif"; "/proj/gage.shp"; "/proj/gage.dbf"; "/proj/gage.shx";
       "/usr/bin/gdalwarp"; "/usr/bin/gdal_translate"]
|}.

Definition tools_config : Config := fun section opt =>
  if String.eqb section "GDAL/OGR" then
    if String.eqb opt "PATH_OF_GDAL_WARP" then Ok "/usr/bin/gdalwarp"
    else if String.eqb opt "PATH_OF_GDAL_TRANSLATE" then Ok "/usr/bin/gdal_translate"
    else if String.eqb opt "PATH_OF_OGR2OGR" then Ok "/usr/bin/ogr2ogr"
    else Raise (NoOptionError opt)
  else Raise (NoSectionError section).

(** A data source whose only layer holds one polygon east of Greenwich,
    between 10 and 11 degrees east. *)
Definition alpine_layer : Layer := {|
  GetName := "catchment";
  GetLayerDefn := [mkField "id" OFTInteger];
  ExportToProj4 := "+proj=longlat +datum=WGS84 +no_defs";
  authority := ("EPSG", "4326");
  features := [mkFeature [10; 11; 46; 47] 10 46]
|}.

Definition alpine_ogr : OGR := {|
  ogr_Open := fun p =>
    if String.eqb p "/data/catchment.shp" then Some [alpine_layer] else None;
  SetAttributeFilter := fun l _ => Some (features l);
  GetDriverByName := fun n => String.eqb n "ESRI Shapefile";
  CreateDataSource := fun _ => Ok true;
  CreateLayer := fun _ _ _ => Ok true;
  CreateFeature := fun _ => Ok 0%Z
|}.

(* ================================================================= *)
(** * Properties *)

(** ** Comparisons *)

Lemma Qlt_bool_true (x y : Q) : (x <? y) = true <-> x < y.
Proof.
  unfold Qlt_bool. rewrite negb_true_iff, <- not_true_iff_false, Qle_bool_iff.
  split; [apply Qnot_le_lt | apply Qlt_not_le].
Qed.

Lemma Qlt_bool_false (x y : Q) : (x <? y) = false <-> y <= x.
Proof.
  unfold Qlt_bool. rewrite negb_false_iff. apply Qle_bool_iff.
Qed.

Lemma Qgt_bool_true (x y : Q) : (x >? y) = true <-> y < x.
Proof. apply Qlt_bool_true. Qed.

Lemma Qgt_bool_false (x y : Q) : (x >? y) = false <-> x <= y.
Proof. apply Qlt_bool_false. Qed.

Lemma Qle_bool_false (x y : Q) : (x <=? y) = false <-> y < x.
Proof.
  rewrite <- not_true_iff_false, Qle_bool_iff.
  split; [apply Qnot_le_lt | apply Qlt_not_le].
Qed.

(** Case analysis on every comparison of the goal, leaving the outcome as
    an order fact among the hypotheses. *)
Ltac split_comparisons :=
  repeat match goal with
  | |- context [Qlt_bool ?x ?y] =>
      let E := fresh "E" in
      destruct (Qlt_bool x y) eqn:E;
      [apply Qlt_bool_true in E | apply Qlt_bool_false in E]
  | |- context [Qgt_bool ?x ?y] =>
      let E := fresh "E" in
      destruct (Qgt_bool x y) eqn:E;
      [apply Qgt_bool_true in E | apply Qgt_bool_false in E]
  | |- context [Qle_bool ?x ?y] =>
      let E := fresh "E" in
      destruct (Qle_bool x y) eqn:E;
      [apply Qle_bool_iff in E | apply Qle_bool_false in E]
  end.


(** ** Containment and centre *)

Lemma contains_unfold (bbox : BoundingBox) (x y : Q) :
  srs bbox = "EPSG:4326" ->
  isCoordinatePairInBoundingBox bbox (x, y) =
  Ok (negb ((x <? minX bbox) || (x >? maxX bbox))
      && negb ((y <? minY bbox) || (y >? maxY bbox))).
Proof.
  intros Hsrs. unfold isCoordinatePairInBoundingBox. rewrite Hsrs. simpl.
  destruct ((x <? minX bbox) || (x >? maxX bbox)); simpl; [reflexivity |].
  destruct ((y <? minY bbox) || (y >? maxY bbox)); reflexivity.
Qed.



Lemma contains_true_iff (bbox : BoundingBox) (x y : Q) :
  srs bbox = "EPSG:4326" ->
  isCoordinatePairInBoundingBox bbox (x, y) = Ok true <->
  (minX bbox <= x <= maxX bbox /\ minY bbox <= y <= maxY bbox).
Proof.
  intros Hsrs. rewrite contains_unfold by exact Hsrs.
  destruct (x <? minX bbox) eqn:E1; destruct (x >? maxX bbox) eqn:E2;
  destruct (y <? minY bbox) eqn:E3; destruct (y >? maxY bbox) eqn:E4;
  simpl;
  rewrite ?Qlt_bool_true, ?Qlt_bool_false, ?Qgt_bool_true, ?Qgt_bool_false in *;
  (split; [intros H; try discriminate H | intros H; try reflexivity; exfalso]);
  lra.
Qed.

Lemma contains_false_iff (bbox : BoundingBox) (x y : Q) :
  srs bbox = "EPSG:4326" ->
  isCoordinatePairInBoundingBox bbox (x, y) = Ok false <->
  (x < minX bbox \/ maxX bbox < x \/ y < minY bbox \/ maxY bbox < y).
Proof.
  intros Hsrs. rewrite contains_unfold by exact Hsrs.
  destruct (x <? minX bbox) eqn:E1; destruct (x >? maxX bbox) eqn:E2;
  destruct (y <? minY bbox) eqn:E3; destruct (y >? maxY bbox) eqn:E4;
  simpl;
  rewrite ?Qlt_bool_true, ?Qlt_bool_false, ?Qgt_bool_true, ?Qgt_bool_false in *;
  (split; [intros H; try discriminate H | intros H; try reflexivity; exfalso]);
  lra.
Qed.

(** C10.  On a WGS84 box the test is closed-boundary containment: it
    returns [True] exactly on the points with
    [minX <= lon <= maxX] and [minY <= lat <= maxY], so in particular on
    every point of the four edges, and [False] exactly on the points
    strictly outside on some side. *)
Theorem containment_is_closed (bbox : BoundingBox) (x y : Q) :
  srs bbox = "EPSG:4326" ->
  (isCoordinatePairInBoundingBox bbox (x, y) = Ok true <->
     (minX bbox <= x <= maxX bbox /\ minY bbox <= y <= maxY bbox))
  /\ (isCoordinatePairInBoundingBox bbox (x, y) = Ok false <->
     (x < minX bbox \/ maxX bbox < x \/ y < minY bbox \/ maxY bbox < y))
  /\ (minX bbox <= maxX bbox -> minY bbox <= y <= maxY bbox ->
      isCoordinatePairInBoundingBox bbox (minX bbox, y) = Ok true
      /\ isCoordinatePairInBoundingBox bbox (maxX bbox, y) = Ok true)
  /\ (minY bbox <= maxY bbox -> minX bbox <= x <= maxX bbox ->
      isCoordinatePairInBoundingBox bbox (x, minY bbox) = Ok true
      /\ isCoordinatePairInBoundingBox bbox (x, maxY bbox) = Ok true).
Proof.
  intros Hsrs.
  split; [apply contains_true_iff; exact Hsrs |].
  split; [apply contains_false_iff; exact Hsrs |].
  split; intros Hord Hin; split; apply contains_true_iff; try exact Hsrs; lra.
Qed.

Lemma containment_is_closed_witness :
  isCoordinatePairInBoundingBox (mkBBox (-77) 39 (-76) 40 "EPSG:4326") (-77, 40)
  = Ok true.
Proof.
  apply (containment_is_closed (mkBBox (-77) 39 (-76) 40 "EPSG:4326") (-77) 40
           eq_refl); simpl; lra.
Defined.

(** ** UTM zone *)

Lemma Qfloor_between (q : Q) (z : Z) :
  inject_Z z <= q -> q < inject_Z (z + 1) -> Qfloor q = z.
Proof.
  intros Hlo Hhi.
  pose proof (Qfloor_le q) as Hf. pose proof (Qlt_floor q) as Hc.
  assert (Hz1 : (z < Qfloor q + 1)%Z).
  { rewrite Zlt_Qlt. eapply Qle_lt_trans; eassumption. }
  assert (Hz2 : (Qfloor q < z + 1)%Z).
  { rewrite Zlt_Qlt. eapply Qle_lt_trans; eassumption. }
  lia.
Qed.

(** C7.  For a longitude in [[174, 180)], which lies inside
    [[-180, 180]], [getUTMZoneFromCoordinates] returns zone 0, outside
    1..60: the remainder modulo 60 is taken after adding one, so the 60th
    zone comes out as 0. *)
Theorem utm_zone_60_is_reported_as_0 (longitude latitude : Q) :
  174 <= longitude -> longitude < 180 ->
  fst (getUTMZoneFromCoordinates longitude latitude) = 0%Z
  /\ ~ (1 <= fst (getUTMZoneFromCoordinates longitude latitude) <= 60)%Z.
Proof.
  intros Hlo Hhi. unfold getUTMZoneFromCoordinates. cbv zeta. cbn [fst].
  assert (Hfl : Qfloor ((longitude + 180) / 6) = 59%Z).
  { apply Qfloor_between.
    - apply Qle_shift_div_l; [reflexivity |].
      change (inject_Z 59 * 6) with (354 # 1). lra.
    - apply Qlt_shift_div_r; [reflexivity |].
      change (inject_Z (59 + 1) * 6) with (360 # 1). lra. }
  rewrite Hfl. split; [reflexivity |]. change ((59 + 1) mod 60)%Z with 0%Z. lia.
Qed.

Lemma utm_zone_60_is_reported_as_0_witness :
  fst (getUTMZoneFromCoordinates 175 10) = 0%Z.
Proof.
  apply (utm_zone_60_is_reported_as_0 175 10); [discriminate | reflexivity].
Defined.

(** Away from that band the zone is the expected one: for a longitude in
    [[-180, 174)] the result is [floor((lon + 180) / 6) + 1], within
    1..59. *)
Lemma utm_zone_below_174 (longitude latitude : Q) :
  -180 <= longitude -> longitude < 174 ->
  fst (getUTMZoneFromCoordinates longitude latitude)
  = (Qfloor ((longitude + 180) / 6) + 1)%Z
  /\ (1 <= fst (getUTMZoneFromCoordinates longitude latitude) <= 59)%Z.
Proof.
  intros Hlo Hhi. unfold getUTMZoneFromCoordinates. cbv zeta. cbn [fst].
  assert (H0 : (0 <= Qfloor ((longitude + 180) / 6))%Z).
  { change 0%Z with (Qfloor 0). apply Qfloor_resp_le.
    apply Qle_shift_div_l; [reflexivity | lra]. }
  assert (H1 : (Qfloor ((longitude + 180) / 6) < 59)%Z).
  { rewrite Zlt_Qlt. eapply Qle_lt_trans; [apply Qfloor_le |].
    apply Qlt_shift_div_r; [reflexivity |].
    change (inject_Z 59 * 6) with (354 # 1). lra. }
  rewrite Z.mod_small by lia. lia.
Qed.

(** The hemisphere flag: north exactly for a positive latitude. *)
Lemma utm_isNorth (longitude latitude : Q) :
  snd (getUTMZoneFromCoordinates longitude latitude) = true <-> 0 < latitude.
Proof.
  unfold getUTMZoneFromCoordinates. cbv zeta. cbn [snd].
  destruct (latitude >? 0) eqn:E.
  - apply Qgt_bool_true in E. tauto.
  - apply Qgt_bool_false in E. split; [discriminate | intros; exfalso; lra].
Qed.

(** ** Buffering *)

(** C6.  When the buffered northern edge passes 90 while the buffered
    southern edge does not, [bufferBoundingBox] leaves [maxY] above 90:
    its fourth correction tests [minY], not [maxY].  The operation as the
    specification words it clamps [maxY] to 90 there. *)
Theorem buffer_does_not_clamp_maxY (bbox : BoundingBox) (buffer : Q) :
  0 < buffer ->
  minY bbox - buffer <= 90 ->
  90 < maxY bbox + buffer ->
  maxY (bufferBoundingBox bbox buffer) = maxY bbox + buffer
  /\ maxY (bufferBoundingBox_spec bbox buffer) = 90.
Proof.
  intros Hb Hlo Hhi. unfold bufferBoundingBox, bufferBoundingBox_spec.
  cbv zeta.
  destruct (buffer >? 0) eqn:E;
    [| apply Qgt_bool_false in E; exfalso; lra].
  simpl. split.
  - split_comparisons; try reflexivity; exfalso; lra.
  - split_comparisons; try reflexivity; exfalso; lra.
Qed.

Lemma buffer_does_not_clamp_maxY_witness :
  maxY (bufferBoundingBox (mkBBox 0 0 1 (179 # 2) "EPSG:4326") 1) = 181 # 2
  /\ maxY (bufferBoundingBox_spec (mkBBox 0 0 1 (179 # 2) "EPSG:4326") 1) = 90.
Proof.
  apply (buffer_does_not_clamp_maxY (mkBBox 0 0 1 (179 # 2) "EPSG:4326") 1);
    simpl; lra.
Defined.

(** The other three corrections are the ones of the specification. *)
Lemma buffer_other_edges (bbox : BoundingBox) (buffer : Q) :
  minX (bufferBoundingBox bbox buffer) = minX (bufferBoundingBox_spec bbox buffer)
  /\ minY (bufferBoundingBox bbox buffer) = minY (bufferBoundingBox_spec bbox buffer)
  /\ maxX (bufferBoundingBox bbox buffer) == maxX (bufferBoundingBox_spec bbox buffer)
  /\ srs (bufferBoundingBox bbox buffer) = srs bbox.
Proof.
  unfold bufferBoundingBox, bufferBoundingBox_spec. cbv zeta.
  destruct (buffer >? 0); simpl; repeat split; try reflexivity.
  destruct (maxX bbox + buffer >? 180); [ring | reflexivity].
Qed.

(** A zero buffer changes nothing. *)
Lemma buffer_zero (bbox : BoundingBox) : bufferBoundingBox bbox 0 = bbox.
Proof. reflexivity. Qed.

(** ** Tiling *)

Section TilingProperties.
Context {pyproj : PyProj} {runtime : PyRuntime}.

Lemma area_defined_is_wgs84 (bbox : BoundingBox) (area : Q) :
  calculateBoundingBoxAreaSqMeters bbox = Ok area ->
  srs bbox = "EPSG:4326".
Proof.
  unfold calculateBoundingBoxAreaSqMeters.
  destruct (String.eqb (srs bbox) "EPSG:4326") eqn:E; simpl.
  - intros _. apply String.eqb_eq. exact E.
  - discriminate.
Qed.

Lemma tile_prelude (bbox : BoundingBox) (area : Q) :
  calculateBoundingBoxAreaSqMeters bbox = Ok area ->
  (assert (String.eqb (srs bbox) "EPSG:4326") ;;;
   calculateBoundingBoxAreaSqMeters bbox) = Ok area.
Proof.
  intros Harea. rewrite (area_defined_is_wgs84 _ _ Harea). simpl.
  rewrite <- Harea. unfold calculateBoundingBoxAreaSqMeters.
  rewrite (area_defined_is_wgs84 _ _ Harea). reflexivity.
Qed.

(** A box whose area does not exceed the threshold is returned alone
    and unchanged, whatever the fuel. *)
Lemma tile_within_threshold (fuel : nat) (bbox : BoundingBox)
    (threshold area : Q) :
  calculateBoundingBoxAreaSqMeters bbox = Ok area ->
  area <= threshold ->
  tileBoundingBox fuel bbox threshold = Some (Ok [bbox]).
Proof.
  intros Harea Hle. unfold tileBoundingBox.
  rewrite (tile_prelude _ _ Harea).
  apply Qle_bool_iff in Hle. rewrite Hle. reflexivity.
Qed.

(** The first row of the tiling loop stops at the unbound name. *)
Lemma tile_rows_unbound (fuel : nat) (bbox : BoundingBox)
    (tileSide minLat minLon : Q) (bboxes : list BoundingBox) :
  minLat < maxY bbox ->
  tile_rows (S fuel) bbox tileSide minLat minLon bboxes
  = Some (Raise (NameError "geod")).
Proof.
  intros Hlt. apply Qlt_bool_true in Hlt. simpl. rewrite Hlt. reflexivity.
Qed.

(** What [tileBoundingBox] returns is never a list of fresh tiles: the
    only lists it can return are [[bbox]] and the empty list. *)
Lemma tile_results (fuel : nat) (bbox : BoundingBox) (threshold : Q)
    (tiles : list BoundingBox) :
  tileBoundingBox fuel bbox threshold = Some (Ok tiles) ->
  tiles = [bbox] \/ tiles = [].
Proof.
  unfold tileBoundingBox.
  destruct (assert (String.eqb (srs bbox) "EPSG:4326") ;;;
            calculateBoundingBoxAreaSqMeters bbox) as [area | e];
    [| discriminate].
  destruct (area <=? threshold); [intros [= <-]; left; reflexivity |].
  destruct (threshold <? 0); [discriminate |].
  destruct fuel as [| fuel]; simpl;
    destruct (minY bbox <? maxY bbox);
    try discriminate; intros [= <-]; right; reflexivity.
Qed.
End TilingProperties.

(** C5.  On a WGS84 box of positive height whose area exceeds a
    non-negative threshold, [tileBoundingBox] produces no grid of tiles:
    the first iteration of its loop reads [geod], a name bound only inside
    [calculateBoundingBoxAreaSqMeters] ([NORTH] and [EAST] are bound
    nowhere), and the call ends in [NameError].  A box whose area is within
    the threshold is returned as [[bbox]]. *)
Theorem tiling_branch_raises_NameError
    (pyproj : PyProj) (runtime : PyRuntime)
    (fuel : nat) (bbox : BoundingBox) (threshold area : Q) :
  calculateBoundingBoxAreaSqMeters bbox = Ok area ->
  threshold < area ->
  0 <= threshold ->
  minY bbox < maxY bbox ->
  tileBoundingBox (S fuel) bbox threshold = Some (Raise (NameError "geod"))
  /\ (forall small : BoundingBox, forall a : Q,
        calculateBoundingBoxAreaSqMeters small = Ok a -> a <= threshold ->
        tileBoundingBox (S fuel) small threshold = Some (Ok [small])).
Proof.
  intros Harea Hgt Hth Hrows. split.
  - unfold tileBoundingBox. rewrite (tile_prelude _ _ Harea).
    apply Qle_bool_false in Hgt. rewrite Hgt.
    apply Qlt_bool_false in Hth. rewrite Hth.
    apply tile_rows_unbound. exact Hrows.
  - intros small a Ha Hle. eapply tile_within_threshold; eassumption.
Qed.

Lemma tiling_branch_raises_NameError_witness :
  tileBoundingBox 1 (mkBBox (-1) (-1) 1 1 "EPSG:4326") 1000000000
  = Some (Raise (NameError "geod")).
Proof.
  apply (tiling_branch_raises_NameError planar_pyproj decimal_runtime 0
           (mkBBox (-1) (-1) 1 1 "EPSG:4326") 1000000000 (99137139200 # 2));
    [reflexivity | reflexivity | discriminate | reflexivity].
Defined.

(** ** The attribute filter *)

Lemma string_append_assoc (s1 s2 s3 : string) :
  (s1 ++ s2) ++ s3 = s1 ++ s2 ++ s3.
Proof.
  induction s1 as [| c s1 IH]; simpl; [reflexivity | rewrite IH; reflexivity].
Qed.

Lemma joinAnd_cons (t u : string) (rest : list string) :
  joinAnd (t :: u :: rest) = t ++ " and " ++ joinAnd (u :: rest).
Proof. reflexivity. Qed.

(** The loop appends one unquoted equality per remaining ID. *)
Lemma extendFilter_join (attr : string) (rest : list string) :
  forall (acc : string) (t : string),
    extendFilter (acc ++ t) attr rest
    = acc ++ joinAnd (t :: map (fun v => attr ++ "=" ++ v) rest).
Proof.
  induction rest as [| point rest IH]; intros acc t.
  - reflexivity.
  - cbn [extendFilter map]. rewrite joinAnd_cons.
    replace ((acc ++ t) ++ " and " ++ attr ++ "=" ++ point)
      with ((acc ++ t ++ " and ") ++ (attr ++ "=" ++ point))
      by (rewrite !string_append_assoc; reflexivity).
    rewrite IH. rewrite !string_append_assoc. reflexivity.
Qed.

Lemma filterTerm_unquoted (ty : OGRFieldType) (attr : string) (l : list string) :
  OGRFieldType_eqb OFTString ty = false ->
  map (filterTerm ty attr) l = map (fun v => attr ++ "=" ++ v) l.
Proof.
  intros Hty. apply map_ext. intros v. unfold filterTerm. rewrite Hty.
  reflexivity.
Qed.

(** For an attribute that is not string-typed, the filter built is the
    conjunction of the specification, with no value quoted. *)
Lemma numeric_filter_is_conjunction (ty : OGRFieldType) (attr : string)
    (first : string) (rest : list string) :
  OGRFieldType_eqb OFTString ty = false ->
  buildWhereFilter ty attr (first :: rest)
  = Ok (whereFilter_spec ty attr (first :: rest)).
Proof.
  intros Hty. unfold buildWhereFilter, whereFilter_spec. simpl assert.
  cbn [bind]. rewrite Hty. f_equal.
  rewrite (filterTerm_unquoted ty attr (first :: rest) Hty). cbn [map].
  exact (extendFilter_join attr rest EmptyString (attr ++ "=" ++ first)).
Qed.

(** For a string-typed attribute, the first value is quoted and the
    values after it are not. *)
Lemma string_filter_shape (attr first : string) (rest : list string) :
  buildWhereFilter OFTString attr (first :: rest)
  = Ok (joinAnd ((attr ++ "='" ++ first ++ "'")
                 :: map (fun v => attr ++ "=" ++ v) rest)).
Proof.
  unfold buildWhereFilter. simpl assert. cbn [bind OGRFieldType_eqb]. f_equal.
  exact (extendFilter_join attr rest EmptyString (attr ++ "='" ++ first ++ "'")).
Qed.

(** For a string-typed attribute and a single ID, the value is quoted. *)
Lemma single_string_filter (attr id : string) :
  buildWhereFilter OFTString attr [id] = Ok (attr ++ "='" ++ id ++ "'")
  /\ whereFilter_spec OFTString attr [id] = attr ++ "='" ++ id ++ "'".
Proof. split; reflexivity. Qed.

(** C3.  For the string-typed attribute [gage_id] and the two IDs
    [01589312] and [01589330], the filter built quotes the first value
    only, where the conjunction of the specification quotes both. *)
Theorem string_filter_quotes_first_id_only :
  buildWhereFilter OFTString "gage_id" ["01589312"; "01589330"]
  = Ok "gage_id='01589312' and gage_id=01589330"
  /\ whereFilter_spec OFTString "gage_id" ["01589312"; "01589330"]
     = "gage_id='01589312' and gage_id='01589330'".
Proof. split; reflexivity. Qed.

(** ** Extent of a shapefile *)

Section ExtentProperties.
Context {pyproj : PyProj} {ogr : OGR}.

Lemma shapefileExtent_empty (shapefileName : string) (poLayer : Layer)
    (rest : list Layer) :
  ogr_Open shapefileName = Some (poLayer :: rest) ->
  features poLayer = [] ->
  shapefileExtent shapefileName = Ok (mkBBox 0 90 (-180) 0 "EPSG:4326").
Proof.
  intros Hopen Hnone. unfold shapefileExtent. rewrite Hopen, Hnone.
  reflexivity.
Qed.

(** Every box the extent computation returns is tagged WGS84. *)
Lemma shapefileExtent_srs (shapefileName : string) (bbox : BoundingBox) :
  shapefileExtent shapefileName = Ok bbox -> srs bbox = "EPSG:4326".
Proof.
  unfold shapefileExtent.
  destruct (ogr_Open shapefileName) as [[| poLayer rest] |]; try discriminate.
  simpl.
  destruct (extent_loop _ _ extent_seed (features poLayer))
    as [[[[x0 y0] x1] y1] | e]; simpl; [| discriminate].
  intros [= <-]. reflexivity.
Qed.

(** One step of the loop only widens the running extent, and the new
    extent covers the two transformed corners of the feature. *)
Lemma extent_step_covers (p_in p_out : string) (x0 y0 x1 y1 : Q)
    (f : Feature) (x0' y0' x1' y1' : Q) :
  extent_step p_in p_out (x0, y0, x1, y1) f = Ok (x0', y0', x1', y1') ->
  (x0' <= x0 /\ y0' <= y0 /\ x1 <= x1' /\ y1 <= y1')
  /\ forall a b c d : Q,
       GetEnvelope f = [a; b; c; d] ->
       x0' <= fst (transform p_in p_out a c)
       /\ y0' <= snd (transform p_in p_out a c)
       /\ fst (transform p_in p_out b d) <= x1'
       /\ snd (transform p_in p_out b d) <= y1'.
Proof.
  unfold extent_step, envelope_get.
  destruct (GetEnvelope f) as [| a [| b [| c [| d env]]]]; simpl;
    try discriminate;
    try (destruct (transform p_in p_out a c); discriminate).
  destruct (transform p_in p_out a c) as [tx ty] eqn:Tmin.
  destruct (transform p_in p_out b d) as [tX tY] eqn:Tmax.
  intros [= <- <- <- <-]. split.
  - split_comparisons; repeat split; lra.
  - intros a' b' c' d' [= <- <- <- <-]. rewrite Tmin, Tmax. simpl.
    split_comparisons; repeat split; lra.
Qed.

Lemma extent_loop_widens (p_in p_out : string) (fts : list Feature) :
  forall x0 y0 x1 y1 x0' y0' x1' y1' : Q,
    extent_loop p_in p_out (x0, y0, x1, y1) fts = Ok (x0', y0', x1', y1') ->
    x0' <= x0 /\ y0' <= y0 /\ x1 <= x1' /\ y1 <= y1'.
Proof.
  induction fts as [| f fts IH]; intros x0 y0 x1 y1 x0' y0' x1' y1';
    cbn [extent_loop].
  - intros [= <- <- <- <-]. repeat split; lra.
  - destruct (extent_step p_in p_out (x0, y0, x1, y1) f)
      as [[[[u0 v0] u1] v1] | e] eqn:Hstep; cbn [bind]; [| discriminate].
    intros Hloop. apply IH in Hloop.
    apply extent_step_covers in Hstep. lra.
Qed.

Lemma extent_loop_covers (p_in p_out : string) (fts : list Feature) :
  forall x0 y0 x1 y1 x0' y0' x1' y1' : Q,
    extent_loop p_in p_out (x0, y0, x1, y1) fts = Ok (x0', y0', x1', y1') ->
    forall (f : Feature) (a b c d : Q),
      In f fts -> GetEnvelope f = [a; b; c; d] ->
      x0' <= fst (transform p_in p_out a c)
      /\ y0' <= snd (transform p_in p_out a c)
      /\ fst (transform p_in p_out b d) <= x1'
      /\ snd (transform p_in p_out b d) <= y1'.
Proof.
  induction fts as [| g fts IH]; intros x0 y0 x1 y1 x0' y0' x1' y1';
    cbn [extent_loop].
  - intros _ f a b c d [].
  - destruct (extent_step p_in p_out (x0, y0, x1, y1) g)
      as [[[[u0 v0] u1] v1] | e] eqn:Hstep; cbn [bind]; [| discriminate].
    intros Hloop f a b c d [-> | Hin] Henv.
    + apply extent_loop_widens in Hloop.
      apply extent_step_covers in Hstep. destruct Hstep as [_ Hcov].
      specialize (Hcov a b c d Henv). lra.
    + eapply IH; eassumption.
Qed.

(** With at least one feature whose two transformed corners are in
    order, the extent is an ordered box. *)
Lemma shapefileExtent_ordered (shapefileName : string) (poLayer : Layer)
    (rest : list Layer) (f : Feature) (a b c d : Q) (bbox : BoundingBox) :
  ogr_Open shapefileName = Some (poLayer :: rest) ->
  In f (features poLayer) ->
  GetEnvelope f = [a; b; c; d] ->
  fst (transform (ExportToProj4 poLayer) "EPSG:4326" a c)
    <= fst (transform (ExportToProj4 poLayer) "EPSG:4326" b d) ->
  snd (transform (ExportToProj4 poLayer) "EPSG:4326" a c)
    <= snd (transform (ExportToProj4 poLayer) "EPSG:4326" b d) ->
  shapefileExtent shapefileName = Ok bbox ->
  ordered bbox.
Proof.
  intros Hopen Hin Henv HX HY. unfold shapefileExtent. rewrite Hopen. simpl.
  unfold extent_seed.
  destruct (extent_loop _ _ (0, 90, -180, 0) (features poLayer))
    as [[[[x0 y0] x1] y1] | e] eqn:Hloop; simpl; [| discriminate].
  intros [= <-]. unfold ordered. simpl.
  pose proof (extent_loop_covers _ _ _ _ _ _ _ _ _ _ _ Hloop f a b c d Hin Henv).
  lra.
Qed.
End ExtentProperties.

(** C4.  When the first layer of the shapefile has no feature,
    [getBoundingBoxForShapefile] raises nothing: it returns the box its
    running extent starts from, [{minX: 0, minY: 90, maxX: -180, maxY: 0}]
    tagged [EPSG:4326], after buffering (the [ecohydroworkflowlib] version
    returns that box as it is). *)
Theorem empty_layer_gives_seed_box (pyproj : PyProj) (ogr : OGR)
    (shapefileName : string) (poLayer : Layer) (rest : list Layer)
    (buffer : Q) :
  ogr_Open shapefileName = Some (poLayer :: rest) ->
  features poLayer = [] ->
  0 <= buffer ->
  getBoundingBoxForShapefile shapefileName buffer
  = Ok (bufferBoundingBox (mkBBox 0 90 (-180) 0 "EPSG:4326") buffer)
  /\ getBoundingBoxForShapefile_workflowlib shapefileName
     = Ok (mkBBox 0 90 (-180) 0 "EPSG:4326").
Proof.
  intros Hopen Hnone Hbuf.
  unfold getBoundingBoxForShapefile, getBoundingBoxForShapefile_workflowlib.
  rewrite (shapefileExtent_empty _ _ _ Hopen Hnone).
  apply Qle_bool_iff in Hbuf. unfold Qge_bool. rewrite Hbuf.
  split; reflexivity.
Qed.

Lemma empty_layer_gives_seed_box_witness :
  getBoundingBoxForShapefile "/data/empty.shp" (1 # 2)
  = Ok (mkBBox (-1 # 2) (179 # 2) (-359 # 2) (1 # 2) "EPSG:4326").
Proof.
  apply (empty_layer_gives_seed_box planar_pyproj sample_ogr
           "/data/empty.shp" empty_layer [] (1 # 2));
    [reflexivity | reflexivity | discriminate].
Defined.

(** C4, refuted as worded: on a shapefile whose only layer is empty the
    call returns a box and raises no error. *)
Lemma empty_layer_is_not_an_error :
  getBoundingBoxForShapefile "/data/empty.shp" 0
  = Ok (mkBBox 0 90 (-180) 0 "EPSG:4326")
  /\ ~ (exists e : PyError,
          getBoundingBoxForShapefile "/data/empty.shp" 0 = Raise e).
Proof.
  split; [reflexivity | intros [e He]; discriminate He].
Qed.

(** ** The polygon of a bounding box *)

(** The ring written goes SW, NW, NE, SE: the vertices of the area
    computation, traversed from the same corner in the other direction. *)
Lemma bboxRing_vertices (bbox : BoundingBox) :
  bboxRing bbox
  = [ (minX bbox, minY bbox); (minX bbox, maxY bbox);
      (maxX bbox, maxY bbox); (maxX bbox, minY bbox) ]
  /\ bboxRing bbox
     = match bboxRing_spec bbox with
       | sw :: others => sw :: rev others
       | [] => []
       end.
Proof. split; reflexivity. Qed.

(** C2.  [writeBboxPolygonToShapefile], when it returns, has written one
    polygon of one 4-vertex ring with CRS EPSG:4326 whose corners run
    SW [(minX, minY)], NW [(minX, maxY)], NE [(maxX, maxY)],
    SE [(maxX, minY)]: the corners of the area computation in the opposite
    direction.  It returns whenever the output directory is a writable
    directory, the shapefile does not exist yet and the OGR calls
    succeed. *)
Theorem bbox_polygon_runs_sw_nw_ne_se (oslib : OSLib) (ogr : OGR)
    (files : FileSystem) (bbox : BoundingBox) (outputDir layerName : string) :
  isdir files outputDir = true ->
  access_W files outputDir = true ->
  exists_ files (path_join (abspath outputDir) (layerName ++ ".shp")) = false ->
  GetDriverByName "ESRI Shapefile" = true ->
  CreateDataSource (path_join (abspath outputDir) (layerName ++ ".shp")) = Ok true ->
  CreateLayer layerName 4326%Z wkbPolygon = Ok true ->
  CreateFeature [bboxRing bbox] = Ok 0%Z ->
  writeBboxPolygonToShapefile files bbox outputDir layerName
  = Ok (layerName ++ ".shp",
        mkWritten (path_join (abspath outputDir) (layerName ++ ".shp"))
          layerName 4326%Z wkbPolygon
          [[ [ (minX bbox, minY bbox); (minX bbox, maxY bbox);
               (maxX bbox, maxY bbox); (maxX bbox, minY bbox) ] ]]).
Proof.
  intros Hdir Hw Hnew Hdrv Hds Hlyr Hft. unfold writeBboxPolygonToShapefile.
  cbv zeta. unfold extsep, WGS84_EPSG.
  change ("." ++ "shp") with ".shp".
  rewrite Hdir, Hw, Hnew, Hdrv. simpl raise_unless. cbn [bind assert].
  rewrite Hds. cbn [bind assert]. rewrite Hlyr. cbn [bind assert].
  rewrite Hft. reflexivity.
Qed.

Lemma bbox_polygon_runs_sw_nw_ne_se_witness :
  writeBboxPolygonToShapefile project_files
    (mkBBox (-77) 39 (-76) 40 "EPSG:4326") "/proj" "bbox"
  = Ok ("bbox.shp",
        mkWritten "/proj/bbox.shp" "bbox" 4326%Z wkbPolygon
          [[ [ (-77, 39); (-77, 40); (-76, 40); (-76, 39) ] ]]).
Proof.
  apply (bbox_polygon_runs_sw_nw_ne_se posix_oslib sample_ogr project_files
           (mkBBox (-77) 39 (-76) 40 "EPSG:4326") "/proj" "bbox");
    reflexivity.
Defined.

(** C2, refuted as worded: the ring written for the box
    [-77 39 -76 40] is not the ring SW, SE, NE, NW. *)
Lemma bbox_polygon_is_not_sw_se_ne_nw :
  exists ws : WrittenShapefile,
    writeBboxPolygonToShapefile project_files
      (mkBBox (-77) 39 (-76) 40 "EPSG:4326") "/proj" "bbox"
    = Ok ("bbox.shp", ws)
    /\ bboxRing_spec (mkBBox (-77) 39 (-76) 40 "EPSG:4326")
       = [ (-77, 39); (-76, 39); (-76, 40); (-77, 40) ]
    /\ ws_polygons ws
       <> [[ bboxRing_spec (mkBBox (-77) 39 (-76) 40 "EPSG:4326") ]].
Proof.
  eexists. split; [reflexivity |]. split; [reflexivity |].
  simpl. intros H. discriminate H.
Qed.

(** ** Resampling *)

Section ResampleProperties.
Context {oslib : OSLib} {runtime : PyRuntime}.


End ResampleProperties.




(** ** The invariant of bounding boxes *)

Lemma wgs84_is_epsg_string : is_epsg_string "EPSG:4326" = true.
Proof. reflexivity. Qed.

(** Parsing tags the box WGS84. *)
Lemma bboxFromString_srs (runtime : PyRuntime) (bboxStr : string)
    (bbox : BoundingBox) :
  bboxFromString bboxStr = Ok bbox -> srs bbox = "EPSG:4326".
Proof.
  unfold bboxFromString. cbv zeta.
  repeat match goal with
  | |- context [bind ?r _] => destruct r; cbn [bind]; [| discriminate]
  end.
  intros [= <-]. reflexivity.
Qed.

(** Buffering keeps an ordered box ordered when the box lies within the
    latitude range and the buffer wraps neither meridian edge. *)
Lemma buffer_keeps_order (bbox : BoundingBox) (buffer : Q) :
  ordered bbox ->
  -180 <= minX bbox - buffer ->
  maxX bbox + buffer <= 180 ->
  -90 <= minY bbox ->
  maxY bbox <= 90 ->
  ordered (bufferBoundingBox bbox buffer).
Proof.
  unfold ordered, bufferBoundingBox. cbv zeta. intros [HX HY] Hw He Hs Hn.
  destruct (buffer >? 0) eqn:E; [| split; assumption].
  apply Qgt_bool_true in E. simpl.
  split; split_comparisons; lra.
Qed.

(** Tiling returns boxes tagged WGS84, and ordered ones when its input is
    ordered. *)
Lemma tile_invariant (pyproj : PyProj) (runtime : PyRuntime) (fuel : nat)
    (bbox : BoundingBox) (threshold : Q) (tiles : list BoundingBox) :
  tileBoundingBox fuel bbox threshold = Some (Ok tiles) ->
  forall tile : BoundingBox, In tile tiles ->
    srs tile = "EPSG:4326" /\ (ordered bbox -> ordered tile).
Proof.
  intros Htiles tile Hin.
  assert (Hsrs : srs bbox = "EPSG:4326").
  { revert Htiles. unfold tileBoundingBox.
    destruct (String.eqb (srs bbox) "EPSG:4326") eqn:E; simpl.
    - intros _. apply String.eqb_eq. exact E.
    - discriminate. }
  destruct (tile_results fuel bbox threshold tiles Htiles) as [-> | ->].
  - destruct Hin as [<- | []]. split; [exact Hsrs | trivial].
  - destruct Hin.
Qed.

(** C1.  The boxes returned by parsing the wire string, by tiling and by
    shapefile extent derivation carry the srs ["EPSG:4326"], a string of
    the form ["EPSG:<code>"], and buffering leaves the srs as it was.  The
    order [minX <= maxX], [minY <= maxY] is kept rather than established:
    a tile returned for an ordered box is ordered; buffering an ordered
    box with latitudes in [[-90, 90]] gives an ordered box when neither
    meridian edge is wrapped; the extent of a shapefile, taken with a zero
    buffer, is ordered when some feature of the layer has its two
    reprojected envelope corners in order. *)
Theorem bounding_box_invariant (pyproj : PyProj) (runtime : PyRuntime)
    (ogr : OGR) :
  (forall (bboxStr : string) (bbox : BoundingBox),
     bboxFromString bboxStr = Ok bbox ->
     srs bbox = "EPSG:4326" /\ is_epsg_string (srs bbox) = true)
  /\ (forall (bbox : BoundingBox) (buffer : Q),
        srs (bufferBoundingBox bbox buffer) = srs bbox
        /\ (ordered bbox ->
            -180 <= minX bbox - buffer -> maxX bbox + buffer <= 180 ->
            -90 <= minY bbox -> maxY bbox <= 90 ->
            ordered (bufferBoundingBox bbox buffer)))
  /\ (forall (fuel : nat) (bbox : BoundingBox) (threshold : Q)
             (tiles : list BoundingBox),
        tileBoundingBox fuel bbox threshold = Some (Ok tiles) ->
        forall tile : BoundingBox, In tile tiles ->
          srs tile = "EPSG:4326" /\ is_epsg_string (srs tile) = true
          /\ (ordered bbox -> ordered tile))
  /\ (forall (shapefileName : string) (buffer : Q) (bbox : BoundingBox),
        getBoundingBoxForShapefile shapefileName buffer = Ok bbox ->
        srs bbox = "EPSG:4326" /\ is_epsg_string (srs bbox) = true)
  /\ (forall (shapefileName : string) (poLayer : Layer) (rest : list Layer)
             (f : Feature) (a b c d : Q) (bbox : BoundingBox),
        ogr_Open shapefileName = Some (poLayer :: rest) ->
        In f (features poLayer) ->
        GetEnvelope f = [a; b; c; d] ->
        fst (transform (ExportToProj4 poLayer) "EPSG:4326" a c)
          <= fst (transform (ExportToProj4 poLayer) "EPSG:4326" b d) ->
        snd (transform (ExportToProj4 poLayer) "EPSG:4326" a c)
          <= snd (transform (ExportToProj4 poLayer) "EPSG:4326" b d) ->
        getBoundingBoxForShapefile shapefileName 0 = Ok bbox ->
        ordered bbox).
Proof.
  split; [| split; [| split; [| split]]].
  - intros bboxStr bbox H. apply bboxFromString_srs in H. rewrite H.
    split; reflexivity.
  - intros bbox buffer. split.
    + apply buffer_other_edges.
    + apply buffer_keeps_order.
  - intros fuel bbox threshold tiles Htiles tile Hin.
    destruct (tile_invariant _ _ fuel bbox threshold tiles Htiles tile Hin)
      as [Hsrs Hord].
    rewrite Hsrs. split; [reflexivity | split; [reflexivity | exact Hord]].
  - intros shapefileName buffer bbox. unfold getBoundingBoxForShapefile.
    destruct (assert (buffer >=? 0)); cbn [bind]; [| discriminate].
    destruct (shapefileExtent shapefileName) as [ext | e] eqn:Hext;
      cbn [bind]; [| discriminate].
    intros [= <-]. apply shapefileExtent_srs in Hext.
    destruct (buffer_other_edges ext buffer) as (_ & _ & _ & ->).
    rewrite Hext. split; reflexivity.
  - intros shapefileName poLayer rest f a b c d bbox Hopen Hin Henv HX HY.
    unfold getBoundingBoxForShapefile. simpl assert. cbn [bind].
    destruct (shapefileExtent shapefileName) as [ext | e] eqn:Hext;
      cbn [bind]; [| discriminate].
    rewrite buffer_zero. intros [= <-].
    eapply shapefileExtent_ordered; eassumption.
Qed.

Lemma bounding_box_invariant_witness :
  ordered (bufferBoundingBox (mkBBox (-77) 39 (-76) 40 "EPSG:4326") (1 # 2))
  /\ srs (bufferBoundingBox (mkBBox (-77) 39 (-76) 40 "EPSG:4326") (1 # 2))
     = "EPSG:4326".
Proof.
  destruct (bounding_box_invariant planar_pyproj decimal_runtime sample_ogr)
    as (_ & Hbuffer & _).
  destruct (Hbuffer (mkBBox (-77) 39 (-76) 40 "EPSG:4326") (1 # 2))
    as [Hsrs Hord].
  split; [| exact Hsrs].
  apply Hord; unfold ordered; simpl; lra.
Defined.

(** C1, refuted as worded: buffering the ordered box
    [-179.5 10 -170 20] by one degree wraps its western edge to 179.5,
    east of its eastern edge -169; the wire string [1 1 0 0] parses to a
    box with [minX > maxX]; and the extent of an empty layer is the box
    [0 90 -180 0]. *)
Lemma bounding_box_order_is_not_invariant :
  (ordered (mkBBox (-359 # 2) 10 (-170) 20 "EPSG:4326")
   /\ bufferBoundingBox (mkBBox (-359 # 2) 10 (-170) 20 "EPSG:4326") 1
      = mkBBox (359 # 2) 9 (-169) 21 "EPSG:4326"
   /\ ~ ordered (bufferBoundingBox (mkBBox (-359 # 2) 10 (-170) 20 "EPSG:4326") 1))
  /\ (bboxFromString "1 1 0 0" = Ok (mkBBox 1 1 0 0 "EPSG:4326")
      /\ ~ ordered (mkBBox 1 1 0 0 "EPSG:4326"))
  /\ (getBoundingBoxForShapefile "/data/empty.shp" 0
      = Ok (mkBBox 0 90 (-180) 0 "EPSG:4326")
      /\ ~ ordered (mkBBox 0 90 (-180) 0 "EPSG:4326")).
Proof.
  repeat split; try reflexivity; unfold ordered; simpl; try lra;
    intros [H1 H2]; lra.
Qed.

(* ================================================================= *)
(** * Further properties of the module *)

(** ** Buffering, containment and centre together *)

(** A buffer that is not positive, a negative one included, leaves the
    box as it is: [bufferBoundingBox] never shrinks a box. *)
Theorem buffer_nonpositive_is_noop (bbox : BoundingBox) (buffer : Q) :
  buffer <= 0 -> bufferBoundingBox bbox buffer = bbox.
Proof.
  intros Hb. unfold bufferBoundingBox.
  destruct (buffer >? 0) eqn:E; [| reflexivity].
  apply Qgt_bool_true in E. exfalso. lra.
Qed.

Lemma buffer_nonpositive_is_noop_witness :
  bufferBoundingBox (mkBBox (-77) 39 (-76) 40 "EPSG:4326") (-1)
  = mkBBox (-77) 39 (-76) 40 "EPSG:4326".
Proof.
  apply (buffer_nonpositive_is_noop (mkBBox (-77) 39 (-76) 40 "EPSG:4326") (-1)).
  discriminate.
Defined.

(** When no meridian edge is wrapped and the box lies within the latitude
    range, every point the box contains is contained in the buffered
    box. *)
Theorem buffered_box_contains_original (bbox : BoundingBox) (buffer x y : Q) :
  srs bbox = "EPSG:4326" ->
  0 <= buffer ->
  -180 <= minX bbox - buffer ->
  maxX bbox + buffer <= 180 ->
  -90 <= minY bbox ->
  maxY bbox <= 90 ->
  isCoordinatePairInBoundingBox bbox (x, y) = Ok true ->
  isCoordinatePairInBoundingBox (bufferBoundingBox bbox buffer) (x, y) = Ok true.
Proof.
  intros Hsrs Hb Hw He Hs Hn Hin.
  apply contains_true_iff in Hin; [| exact Hsrs].
  apply contains_true_iff.
  - destruct (buffer_other_edges bbox buffer) as (_ & _ & _ & ->). exact Hsrs.
  - unfold bufferBoundingBox. cbv zeta.
    destruct (buffer >? 0) eqn:E; [| exact Hin].
    apply Qgt_bool_true in E. simpl.
    repeat split; split_comparisons; lra.
Qed.

Lemma buffered_box_contains_original_witness :
  isCoordinatePairInBoundingBox
    (bufferBoundingBox (mkBBox (-77) 39 (-76) 40 "EPSG:4326") (1 # 2))
    (-77, 40) = Ok true.
Proof.
  apply (buffered_box_contains_original
           (mkBBox (-77) 39 (-76) 40 "EPSG:4326") (1 # 2) (-77) 40);
    try reflexivity; simpl; try lra; discriminate.
Defined.

(** Buffering a box whose longitudes lie in [[-180, 180]] by at most 360
    degrees leaves its longitudes in [[-180, 180]], and its southern edge
    never ends below -90. *)
Theorem buffer_stays_in_range (bbox : BoundingBox) (buffer : Q) :
  0 < buffer -> buffer <= 360 ->
  -180 <= minX bbox <= 180 ->
  -180 <= maxX bbox <= 180 ->
  -180 <= minX (bufferBoundingBox bbox buffer) <= 180
  /\ -180 <= maxX (bufferBoundingBox bbox buffer) <= 180
  /\ -90 <= minY (bufferBoundingBox bbox buffer).
Proof.
  intros Hpos Hmax Hmin Hmx. unfold bufferBoundingBox. cbv zeta.
  destruct (buffer >? 0) eqn:E;
    [| apply Qgt_bool_false in E; exfalso; lra].
  simpl. repeat split; split_comparisons; lra.
Qed.

Lemma buffer_stays_in_range_witness :
  -180 <= minX (bufferBoundingBox (mkBBox (-359 # 2) 10 (-170) 20 "EPSG:4326") 1)
  <= 180.
Proof.
  apply (buffer_stays_in_range (mkBBox (-359 # 2) 10 (-170) 20 "EPSG:4326") 1);
    simpl; lra.
Defined.



(** The three operations that ask for WGS84 refuse a box tagged with
    another srs by [AssertionError]. *)
Theorem other_srs_is_refused (pyproj : PyProj) (runtime : PyRuntime)
    (bbox : BoundingBox) (coordinates : Q * Q) (fuel : nat) (threshold : Q) :
  srs bbox <> "EPSG:4326" ->
  isCoordinatePairInBoundingBox bbox coordinates = Raise AssertionError
  /\ calculateBoundingBoxAreaSqMeters bbox = Raise AssertionError
  /\ tileBoundingBox fuel bbox threshold = Some (Raise AssertionError).
Proof.
  intros Hsrs. apply String.eqb_neq in Hsrs.
  unfold isCoordinatePairInBoundingBox, tileBoundingBox,
    calculateBoundingBoxAreaSqMeters.
  rewrite Hsrs. repeat split; reflexivity.
Qed.

Lemma other_srs_is_refused_witness :
  isCoordinatePairInBoundingBox (mkBBox 0 0 1 1 "EPSG:26918") (0, 0)
  = Raise AssertionError.
Proof.
  apply (other_srs_is_refused planar_pyproj decimal_runtime
           (mkBBox 0 0 1 1 "EPSG:26918") (0, 0) 0%nat 0).
  discriminate.
Defined.

(** ** UTM zones and their EPSG strings *)


Lemma utm_zone_bounds (longitude latitude : Q) :
  (0 <= fst (getUTMZoneFromCoordinates longitude latitude) <= 59)%Z.
Proof.
  unfold getUTMZoneFromCoordinates. cbv zeta. cbn [fst].
  pose proof (Z.mod_pos_bound (Qfloor ((longitude + 180) / 6) + 1) 60).
  lia.
Qed.

(** Whatever the longitude, the zone returned lies in 0..59: 60 is never
    returned. *)
Theorem utm_zone_is_below_60 (longitude latitude : Q) :
  (0 <= fst (getUTMZoneFromCoordinates longitude latitude) <= 59)%Z
  /\ fst (getUTMZoneFromCoordinates longitude latitude) <> 60%Z.
Proof.
  pose proof (utm_zone_bounds longitude latitude). split; lia.
Qed.




Lemma string_of_uint_digits (d : Decimal.uint) :
  all_digits (NilEmpty.string_of_uint d) = true.
Proof. induction d; simpl; auto. Qed.

Lemma nilzero_digits (d : Decimal.uint) :
  all_digits (NilZero.string_of_uint d) = true
  /\ NilZero.string_of_uint d <> EmptyString.
Proof.
  destruct d; simpl;
    (split; [try reflexivity; apply string_of_uint_digits | discriminate]).
Qed.

Lemma format_d_digits (n : Z) :
  (0 <= n)%Z ->
  all_digits (format_d n) = true /\ format_d n <> EmptyString.
Proof.
  intros Hn. unfold format_d. destruct n as [| p | p]; [| | lia].
  - split; [reflexivity | discriminate].
  - apply nilzero_digits.
Qed.

Lemma format_d_injective (a b : Z) : format_d a = format_d b -> a = b.
Proof.
  unfold format_d. intros H. apply DecimalZ.to_int_inj.
  assert (Hnn : forall z, Z.to_int z <> Decimal.Pos Decimal.Nil
                          /\ Z.to_int z <> Decimal.Neg Decimal.Nil).
  { intros [| p | p]; simpl; split; try discriminate;
      intros [= E]; exact (DecimalPos.Unsigned.to_uint_nonnil p E). }
  destruct (Hnn a) as [Ha1 Ha2]. destruct (Hnn b) as [Hb1 Hb2].
  pose proof (NilZero.isi _ Ha1 Ha2) as Ia.
  pose proof (NilZero.isi _ Hb1 Hb2) as Ib.
  rewrite H in Ia. rewrite Ia in Ib. injection Ib. trivial.
Qed.

Lemma epsg_string_pattern (zone : Z) (isNorth : bool) :
  (0 <= zone)%Z ->
  is_epsg_string (getEPSGStringForUTMZone zone isNorth) = true.
Proof.
  intros Hz. unfold getEPSGStringForUTMZone. cbv zeta.
  assert (Hcode : (0 <= (if isNorth then 32600 + zone else 32700 + zone))%Z)
    by (destruct isNorth; lia).
  destruct (format_d_digits _ Hcode) as [Hdig Hne].
  cbn [String.append is_epsg_string]. rewrite Hdig, andb_true_r.
  apply negb_true_iff. apply String.eqb_neq. exact Hne.
Qed.

(** For a zone that is not negative, the string returned has the
    documented pattern [EPSG:] followed by decimal digits, and the digits
    are those of [32600 + zone] in the north and [32700 + zone] in the
    south. *)
Theorem epsg_string_of_zone_is_well_formed (zone : Z) (isNorth : bool) :
  (0 <= zone)%Z ->
  is_epsg_string (getEPSGStringForUTMZone zone isNorth) = true
  /\ getEPSGStringForUTMZone zone isNorth
     = "EPSG:" ++ format_d (if isNorth then 32600 + zone else 32700 + zone)%Z.
Proof.
  intros Hz. split; [apply epsg_string_pattern; exact Hz | reflexivity].
Qed.

Lemma epsg_string_of_zone_is_well_formed_witness :
  is_epsg_string (getEPSGStringForUTMZone 18 true) = true.
Proof.
  apply (epsg_string_of_zone_is_well_formed 18 true). lia.
Defined.

(** Zones below 100 and hemispheres can be read back from the string:
    two calls returning the same string were given the same zone and the
    same hemisphere. *)
Theorem epsg_string_of_zone_is_injective (zone1 zone2 : Z)
    (isNorth1 isNorth2 : bool) :
  (0 <= zone1 < 100)%Z -> (0 <= zone2 < 100)%Z ->
  getEPSGStringForUTMZone zone1 isNorth1 = getEPSGStringForUTMZone zone2 isNorth2 ->
  zone1 = zone2 /\ isNorth1 = isNorth2.
Proof.
  intros H1 H2. unfold getEPSGStringForUTMZone. cbv zeta.
  generalize (eq_refl (if isNorth1 then 32600 + zone1 else 32700 + zone1)%Z).
  generalize (eq_refl (if isNorth2 then 32600 + zone2 else 32700 + zone2)%Z).
  generalize (if isNorth1 then 32600 + zone1 else 32700 + zone1)%Z at 2 3.
  generalize (if isNorth2 then 32600 + zone2 else 32700 + zone2)%Z at 2 3.
  intros c2 c1 E2 E1. cbn [String.append]. intros [= H].
  apply format_d_injective in H. subst c1 c2.
  destruct isNorth1, isNorth2; split; try reflexivity; try lia; exfalso; lia.
Qed.

Lemma epsg_string_of_zone_is_injective_witness :
  (18 = 18)%Z /\ true = true.
Proof.
  apply (epsg_string_of_zone_is_injective 18 18 true true);
    [lia | lia | reflexivity].
Defined.

(** The EPSG string derived from the UTM zone of any coordinate pair is
    well formed. *)
Theorem epsg_string_of_coordinates_is_well_formed (longitude latitude : Q) :
  is_epsg_string
    (getEPSGStringForUTMZone
       (fst (getUTMZoneFromCoordinates longitude latitude))
       (snd (getUTMZoneFromCoordinates longitude latitude))) = true.
Proof.
  apply epsg_string_pattern. apply utm_zone_bounds.
Qed.

(** ** Tiling, once more *)

(** One unit of fuel is enough for [tileBoundingBox] to end, and a call
    that returns a list returns [[bbox]] or the empty list: no box other
    than the one given is ever returned as a tile. *)
Theorem tiling_ends_without_fresh_tiles (pyproj : PyProj)
    (runtime : PyRuntime) (fuel : nat) (bbox : BoundingBox) (threshold : Q) :
  (exists r : Result (list BoundingBox),
     tileBoundingBox (S fuel) bbox threshold = Some r)
  /\ (forall tiles : list BoundingBox,
        tileBoundingBox (S fuel) bbox threshold = Some (Ok tiles) ->
        tiles = [bbox] \/ tiles = []).
Proof.
  split; [| apply tile_results].
  unfold tileBoundingBox.
  destruct (assert (String.eqb (srs bbox) "EPSG:4326") ;;;
            calculateBoundingBoxAreaSqMeters bbox) as [area | e];
    [| eauto].
  destruct (area <=? threshold); [eauto |].
  destruct (threshold <? 0); [eauto |].
  simpl. destruct (minY bbox <? maxY bbox); eauto.
Qed.

(** ** Extent of a shapefile, once more *)

Section MoreExtentProperties.
Context {pyproj : PyProj} {ogr : OGR}.

Lemma zero_buffer_extent (shapefileName : string) (bbox : BoundingBox) :
  getBoundingBoxForShapefile shapefileName 0 = Ok bbox ->
  shapefileExtent shapefileName = Ok bbox.
Proof.
  unfold getBoundingBoxForShapefile. simpl assert. cbn [bind].
  destruct (shapefileExtent shapefileName) as [ext | e]; cbn [bind];
    [| discriminate].
  rewrite buffer_zero. trivial.
Qed.

Lemma shapefileExtent_loop (shapefileName : string) (poLayer : Layer)
    (rest : list Layer) (bbox : BoundingBox) :
  ogr_Open shapefileName = Some (poLayer :: rest) ->
  shapefileExtent shapefileName = Ok bbox ->
  extent_loop (ExportToProj4 poLayer) "EPSG:4326" (0, 90, -180, 0)
    (features poLayer)
  = Ok (minX bbox, minY bbox, maxX bbox, maxY bbox).
Proof.
  intros Hopen. unfold shapefileExtent. rewrite Hopen. simpl.
  unfold extent_seed.
  destruct (extent_loop _ _ (0, 90, -180, 0) (features poLayer))
    as [[[[x0 y0] x1] y1] | e]; simpl; [| discriminate].
  intros [= <-]. reflexivity.
Qed.


(** The western seed survives a layer that lies east of Greenwich. *)
Lemma extent_loop_keeps_zero (p_in p_out : string) (fts : list Feature) :
  (forall (f : Feature) (a b c d : Q) (more : list Q),
     In f fts -> GetEnvelope f = a :: b :: c :: d :: more ->
     0 <= fst (transform p_in p_out a c)) ->
  forall (y0 x1 y1 x0' y0' x1' y1' : Q),
    extent_loop p_in p_out (0, y0, x1, y1) fts = Ok (x0', y0', x1', y1') ->
    x0' = 0.
Proof.
  induction fts as [| f fts IH]; intros Heast y0 x1 y1 x0' y0' x1' y1';
    cbn [extent_loop].
  - intros [= <- _ _ _]. reflexivity.
  - destruct (extent_step p_in p_out (0, y0, x1, y1) f)
      as [[[[u0 v0] u1] v1] | e] eqn:Hstep; cbn [bind]; [| discriminate].
    assert (Hu : u0 = 0).
    { revert Hstep. unfold extent_step, envelope_get.
      destruct (GetEnvelope f) as [| a [| b [| c [| d env]]]] eqn:Henv;
        simpl; try discriminate;
        try (destruct (transform p_in p_out a c); discriminate).
      specialize (Heast f a b c d env (or_introl eq_refl) Henv).
      destruct (transform p_in p_out a c) as [tx ty].
      destruct (transform p_in p_out b d) as [tX tY].
      simpl in Heast. intros [= <- _ _ _].
      destruct (tx <? 0) eqn:E; [| reflexivity].
      apply Qlt_bool_true in E. exfalso. lra. }
    subst u0. intros Hloop. eapply IH; [| exact Hloop].
    intros g a b c d more Hg. apply Heast. right. exact Hg.
Qed.

Lemma extent_is_loop_result (shapefileName : string) (bbox : BoundingBox) :
  getBoundingBoxForShapefile shapefileName 0 = Ok bbox ->
  exists (poLayer : Layer) (rest : list Layer),
    ogr_Open shapefileName = Some (poLayer :: rest)
    /\ extent_loop (ExportToProj4 poLayer) "EPSG:4326" (0, 90, -180, 0)
         (features poLayer)
       = Ok (minX bbox, minY bbox, maxX bbox, maxY bbox).
Proof.
  intros H. apply zero_buffer_extent in H.
  destruct (ogr_Open shapefileName) as [[| poLayer rest] |] eqn:Hopen;
    try (unfold shapefileExtent in H; rewrite Hopen in H; discriminate H).
  exists poLayer, rest. split; [reflexivity |].
  eapply shapefileExtent_loop; eassumption.
Qed.
End MoreExtentProperties.

(** Taken with a zero buffer, the extent of a shapefile always contains
    the values the running extent starts from: [minX <= 0],
    [minY <= 90], [maxX >= -180] and [maxY >= 0], wherever the features
    lie. *)
Theorem extent_contains_its_seed (pyproj : PyProj) (ogr : OGR)
    (shapefileName : string) (bbox : BoundingBox) :
  getBoundingBoxForShapefile shapefileName 0 = Ok bbox ->
  minX bbox <= 0 /\ minY bbox <= 90 /\ -180 <= maxX bbox /\ 0 <= maxY bbox.
Proof.
  intros H. destruct (extent_is_loop_result _ _ H) as (poLayer & rest & _ & Hloop).
  apply extent_loop_widens in Hloop. lra.
Qed.

Lemma extent_contains_its_seed_witness :
  minX (mkBBox (-77) 39 (-77) 39 "EPSG:4326") <= 0.
Proof.
  apply (extent_contains_its_seed planar_pyproj sample_ogr "/data/gages.shp"
           (mkBBox (-77) 39 (-77) 39 "EPSG:4326")).
  reflexivity.
Defined.

(** Taken with a zero buffer, the extent covers the two reprojected
    envelope corners of every feature of the first layer. *)
Theorem extent_covers_every_feature (pyproj : PyProj) (ogr : OGR)
    (shapefileName : string) (poLayer : Layer) (rest : list Layer)
    (f : Feature) (a b c d : Q) (bbox : BoundingBox) :
  ogr_Open shapefileName = Some (poLayer :: rest) ->
  In f (features poLayer) ->
  GetEnvelope f = [a; b; c; d] ->
  getBoundingBoxForShapefile shapefileName 0 = Ok bbox ->
  minX bbox <= fst (transform (ExportToProj4 poLayer) "EPSG:4326" a c)
  /\ minY bbox <= snd (transform (ExportToProj4 poLayer) "EPSG:4326" a c)
  /\ fst (transform (ExportToProj4 poLayer) "EPSG:4326" b d) <= maxX bbox
  /\ snd (transform (ExportToProj4 poLayer) "EPSG:4326" b d) <= maxY bbox.
Proof.
  intros Hopen Hin Henv H. apply zero_buffer_extent in H.
  pose proof (shapefileExtent_loop _ _ _ _ Hopen H) as Hloop.
  exact (extent_loop_covers _ _ _ _ _ _ _ _ _ _ _ Hloop f a b c d Hin Henv).
Qed.

Lemma extent_covers_every_feature_witness :
  minX (mkBBox (-77) 39 (-77) 39 "EPSG:4326") <= -77.
Proof.
  apply (extent_covers_every_feature planar_pyproj sample_ogr
           "/data/gages.shp" gages_layer [] (mkFeature [-77; -77; 39; 39] (-77) 39)
           (-77) (-77) 39 39 (mkBBox (-77) 39 (-77) 39 "EPSG:4326"));
    try reflexivity.
  left. reflexivity.
Defined.



(** For a layer all of whose features lie east of Greenwich (their
    reprojected lower corner has a longitude that is not negative), the
    western edge of the extent is 0, the value the running minimum starts
    from, and not the least longitude of the features. *)
Theorem eastern_layer_has_minX_zero (pyproj : PyProj) (ogr : OGR)
    (shapefileName : string) (poLayer : Layer) (rest : list Layer)
    (bbox : BoundingBox) :
  ogr_Open shapefileName = Some (poLayer :: rest) ->
  (forall (f : Feature) (a b c d : Q) (more : list Q),
     In f (features poLayer) -> GetEnvelope f = a :: b :: c :: d :: more ->
     0 <= fst (transform (ExportToProj4 poLayer) "EPSG:4326" a c)) ->
  getBoundingBoxForShapefile shapefileName 0 = Ok bbox ->
  minX bbox = 0.
Proof.
  intros Hopen Heast H. apply zero_buffer_extent in H.
  pose proof (shapefileExtent_loop _ _ _ _ Hopen H) as Hloop.
  eapply extent_loop_keeps_zero; eassumption.
Qed.

Lemma eastern_layer_has_minX_zero_witness :
  getBoundingBoxForShapefile (ogr := alpine_ogr) "/data/catchment.shp" 0
  = Ok (mkBBox 0 46 11 47 "EPSG:4326")
  /\ minX (mkBBox 0 46 11 47 "EPSG:4326") = 0.
Proof.
  split; [reflexivity |].
  apply (eastern_layer_has_minX_zero planar_pyproj alpine_ogr
           "/data/catchment.shp" alpine_layer [] (mkBBox 0 46 11 47 "EPSG:4326"));
    [reflexivity | | reflexivity].
  intros f a b c d more [<- | []] [= <- _ <- _ _]. simpl. lra.
Defined.

(** ** Coordinates of identified points, once more *)

(** A call that returns, returns at least one coordinate pair: a query
    that selects nothing ends in an exception. *)
Theorem point_coordinates_are_never_empty (pyproj : PyProj) (ogr : OGR)
    (files : FileSystem) (shpFilepath layerName pointIDAttr : string)
    (pointIDs : list string) (coordinates : list (Q * Q)) :
  getCoordinatesOfPointsFromShapefile files shpFilepath layerName pointIDAttr
    pointIDs = Ok coordinates ->
  coordinates <> [].
Proof.
  unfold getCoordinatesOfPointsFromShapefile.
  destruct (access_R files shpFilepath); simpl; [| discriminate].
  destruct (ogr_Open shpFilepath) as [poDS |]; [| discriminate].
  destruct (assert (0 <? List.length poDS)%nat); cbn [bind]; [| discriminate].
  destruct (GetLayerByName poDS layerName) as [poLayer |]; [| discriminate].
  destruct (buildWhereFilter _ pointIDAttr pointIDs) as [whereFilter | e];
    cbn [bind]; [| discriminate].
  destruct (SetAttributeFilter poLayer whereFilter) as [selected |];
    [| discriminate].
  destruct selected as [| poFeature selected]; simpl; [discriminate |].
  intros [= <-]. discriminate.
Qed.

Lemma point_coordinates_are_never_empty_witness :
  getCoordinatesOfPointsFromShapefile project_files "/data/gages.shp" "gages"
    "gage_id" ["01589312"] = Ok [(-77, 39)]
  /\ [(-77, 39)] <> @nil (Q * Q).
Proof.
  split; [reflexivity |].
  apply (point_coordinates_are_never_empty planar_pyproj sample_ogr
           project_files "/data/gages.shp" "gages" "gage_id" ["01589312"]).
  reflexivity.
Defined.

(** On a layer whose authority is EPSG:4326 the coordinates returned are
    the [GetX()], [GetY()] of the selected features, in their order and
    without reprojection. *)
Theorem wgs84_points_are_not_reprojected (pyproj : PyProj) (ogr : OGR)
    (files : FileSystem) (shpFilepath layerName pointIDAttr : string)
    (pointIDs : list string) (poDS : DataSource) (poLayer : Layer)
    (coordinates : list (Q * Q)) :
  ogr_Open shpFilepath = Some poDS ->
  GetLayerByName poDS layerName = Some poLayer ->
  authority poLayer = ("EPSG", "4326") ->
  getCoordinatesOfPointsFromShapefile files shpFilepath layerName pointIDAttr
    pointIDs = Ok coordinates ->
  exists (whereFilter : string) (selected : list Feature),
    buildWhereFilter (idAttrTypeOf pointIDAttr (GetLayerDefn poLayer))
      pointIDAttr pointIDs = Ok whereFilter
    /\ SetAttributeFilter poLayer whereFilter = Some selected
    /\ coordinates = map (fun f => (GetX f, GetY f)) selected.
Proof.
  intros Hopen Hlayer Hauth. unfold getCoordinatesOfPointsFromShapefile.
  destruct (access_R files shpFilepath); simpl; [| discriminate].
  rewrite Hopen.
  destruct (assert (0 <? List.length poDS)%nat); cbn [bind]; [| discriminate].
  rewrite Hlayer, Hauth.
  destruct (buildWhereFilter _ pointIDAttr pointIDs) as [whereFilter | e]
    eqn:Hfilter; cbn [bind]; [| discriminate].
  destruct (SetAttributeFilter poLayer whereFilter) as [selected |]
    eqn:Hselect; [| discriminate].
  simpl.
  destruct (List.length _ =? 0)%nat; [discriminate |].
  intros [= <-]. exists whereFilter, selected.
  split; [first [reflexivity | exact Hfilter] |].
  split; [first [reflexivity | exact Hselect] | reflexivity].
Qed.

Lemma wgs84_points_are_not_reprojected_witness :
  exists (whereFilter : string) (selected : list Feature),
    buildWhereFilter (idAttrTypeOf "gage_id" (GetLayerDefn gages_layer))
      "gage_id" ["01589312"] = Ok whereFilter
    /\ SetAttributeFilter gages_layer whereFilter = Some selected
    /\ [(-77, 39)] = map (fun f => (GetX f, GetY f)) selected.
Proof.
  apply (wgs84_points_are_not_reprojected planar_pyproj sample_ogr
           project_files "/data/gages.shp" "gages" "gage_id" ["01589312"]
           [gages_layer] gages_layer [(-77, 39)]); reflexivity.
Defined.

(** An ID attribute that names no field of the layer is taken to be
    string-typed, so that the ID of a one-ID query is quoted. *)
Theorem unknown_attribute_is_quoted (pointIDAttr id : string)
    (fields : list FieldDefn) :
  (forall f : FieldDefn, In f fields -> GetNameRef f <> pointIDAttr) ->
  idAttrTypeOf pointIDAttr fields = OFTString
  /\ buildWhereFilter (idAttrTypeOf pointIDAttr fields) pointIDAttr [id]
     = Ok (pointIDAttr ++ "='" ++ id ++ "'").
Proof.
  intros Hno.
  assert (Hty : idAttrTypeOf pointIDAttr fields = OFTString).
  { induction fields as [| f fields IH]; [reflexivity |]. simpl.
    destruct (String.eqb pointIDAttr (GetNameRef f)) eqn:E.
    - apply String.eqb_eq in E. exfalso.
      apply (Hno f (or_introl eq_refl)). symmetry. exact E.
    - apply IH. intros g Hg. apply Hno. right. exact Hg. }
  rewrite Hty. split; reflexivity.
Qed.

Lemma unknown_attribute_is_quoted_witness :
  buildWhereFilter (idAttrTypeOf "site" [mkField "gage_id" OFTInteger])
    "site" ["7"] = Ok "site='7'".
Proof.
  apply (unknown_attribute_is_quoted "site" "7" [mkField "gage_id" OFTInteger]).
  intros f [<- | []]. discriminate.
Defined.

(** The type of the ID attribute is the type of the first field of that
    name. *)
Theorem first_field_of_the_name_decides (pointIDAttr : string)
    (before after : list FieldDefn) (ty : OGRFieldType) :
  (forall f : FieldDefn, In f before -> GetNameRef f <> pointIDAttr) ->
  idAttrTypeOf pointIDAttr (before ++ mkField pointIDAttr ty :: after)%list = ty.
Proof.
  intros Hno. induction before as [| f before IH]; simpl.
  - rewrite String.eqb_refl. reflexivity.
  - destruct (String.eqb pointIDAttr (GetNameRef f)) eqn:E.
    + apply String.eqb_eq in E. exfalso.
      apply (Hno f (or_introl eq_refl)). symmetry. exact E.
    + apply IH. intros g Hg. apply Hno. right. exact Hg.
Qed.

Lemma first_field_of_the_name_decides_witness :
  idAttrTypeOf "gage_id"
    ([mkField "name" OFTString] ++ mkField "gage_id" OFTInteger
       :: [mkField "gage_id" OFTString])%list = OFTInteger.
Proof.
  apply (first_field_of_the_name_decides "gage_id" [mkField "name" OFTString]
           [mkField "gage_id" OFTString] OFTInteger).
  intros f [<- | []]. discriminate.
Defined.

(** For a query with one ID, the case of the callers, the filter built
    is the filter of the specification whatever the type of the
    attribute. *)
Theorem single_id_filter_is_as_specified (ty : OGRFieldType)
    (pointIDAttr id : string) :
  buildWhereFilter ty pointIDAttr [id]
  = Ok (whereFilter_spec ty pointIDAttr [id]).
Proof.
  destruct ty; reflexivity.
Qed.

(** For an attribute that is not string-typed and any non-empty list of
    IDs, the filter built is the conjunction of one unquoted equality per
    ID, in the order of the IDs. *)
Theorem numeric_filter_is_the_conjunction (ty : OGRFieldType)
    (pointIDAttr first : string) (rest : list string) :
  ty <> OFTString ->
  buildWhereFilter ty pointIDAttr (first :: rest)
  = Ok (joinAnd (map (fun v => pointIDAttr ++ "=" ++ v) (first :: rest))).
Proof.
  intros Hty.
  assert (H : OGRFieldType_eqb OFTString ty = false)
    by (destruct ty; try reflexivity; contradiction).
  rewrite (numeric_filter_is_conjunction ty pointIDAttr first rest H).
  unfold whereFilter_spec.
  rewrite (filterTerm_unquoted ty pointIDAttr (first :: rest) H). reflexivity.
Qed.

Lemma numeric_filter_is_the_conjunction_witness :
  buildWhereFilter OFTInteger "gage_id" ["1"; "2"; "3"]
  = Ok "gage_id=1 and gage_id=2 and gage_id=3".
Proof.
  apply (numeric_filter_is_the_conjunction OFTInteger "gage_id" "1" ["2"; "3"]).
  discriminate.
Defined.

(** ** The wire form, once more *)

Lemma split_from_run (t : string) :
  no_space t = true ->
  forall (cur rest : string),
    split_from (t ++ rest) (Some cur) = split_from rest (Some (cur ++ t)).
Proof.
  induction t as [| c t IH]; intros Ht cur rest; simpl in *.
  - replace (cur ++ EmptyString) with cur; [reflexivity |].
    clear. induction cur as [| a cur IH]; simpl; [| rewrite <- IH]; reflexivity.
  - apply andb_true_iff in Ht. destruct Ht as [Hc Ht].
    apply negb_true_iff in Hc. rewrite Hc.
    rewrite (IH Ht). rewrite string_append_assoc. reflexivity.
Qed.

Lemma split_from_token (t rest : string) :
  is_token t = true ->
  split_from (t ++ rest) None = split_from rest (Some t).
Proof.
  unfold is_token. intros Ht. apply andb_true_iff in Ht.
  destruct Ht as [Hns Hne]. destruct t as [| c t]; [discriminate |].
  simpl in *. apply andb_true_iff in Hns. destruct Hns as [Hc Ht].
  apply negb_true_iff in Hc. rewrite Hc.
  exact (split_from_run t Ht (String c EmptyString) rest).
Qed.

Lemma split_four_tokens (t0 t1 t2 t3 : string) :
  is_token t0 = true -> is_token t1 = true ->
  is_token t2 = true -> is_token t3 = true ->
  split (t0 ++ " " ++ t1 ++ " " ++ t2 ++ " " ++ t3) = [t0; t1; t2; t3].
Proof.
  intros H0 H1 H2 H3. unfold split.
  rewrite (split_from_token t0 _ H0). cbn [String.append split_from is_space].
  simpl (is_space " "). cbv iota.
  rewrite (split_from_token t1 _ H1). cbn [String.append split_from].
  simpl (is_space " "). cbv iota.
  rewrite (split_from_token t2 _ H2). cbn [String.append split_from].
  simpl (is_space " "). cbv iota.
  replace t3 with (t3 ++ EmptyString) at 1.
  - rewrite (split_from_token t3 _ H3). reflexivity.
  - clear. induction t3 as [| a t IH]; simpl; [| rewrite IH]; reflexivity.
Qed.

(** The wire form read back: four tokens free of whitespace, joined by
    single spaces, are parsed into the box of their four numbers, in the
    order [minX minY maxX maxY], tagged EPSG:4326. *)
Theorem wire_form_is_read_in_order (runtime : PyRuntime)
    (t0 t1 t2 t3 : string) (f0 f1 f2 f3 : Q) :
  is_token t0 = true -> is_token t1 = true ->
  is_token t2 = true -> is_token t3 = true ->
  pyfloat t0 = Ok f0 -> pyfloat t1 = Ok f1 ->
  pyfloat t2 = Ok f2 -> pyfloat t3 = Ok f3 ->
  bboxFromString (t0 ++ " " ++ t1 ++ " " ++ t2 ++ " " ++ t3)
  = Ok (mkBBox f0 f1 f2 f3 "EPSG:4326").
Proof.
  intros H0 H1 H2 H3 P0 P1 P2 P3. unfold bboxFromString. cbv zeta.
  rewrite (split_four_tokens t0 t1 t2 t3 H0 H1 H2 H3).
  cbn [item nth_error bind]. rewrite P0. cbn [bind]. rewrite P1. cbn [bind].
  rewrite P2. cbn [bind]. rewrite P3. reflexivity.
Qed.

Lemma wire_form_is_read_in_order_witness :
  bboxFromString "-77.5 39 -76.25 40.5"
  = Ok (mkBBox (-775 # 10) 39 (-7625 # 100) (405 # 10) "EPSG:4326").
Proof.
  apply (wire_form_is_read_in_order decimal_runtime "-77.5" "39" "-76.25" "40.5"
           (-775 # 10) 39 (-7625 # 100) (405 # 10)); reflexivity.
Defined.

(** [bboxFromString] returns a box exactly when the string holds at least
    four whitespace-separated tokens of which the first four convert to
    floats; the box holds these four numbers and further tokens are
    ignored.  With fewer than four tokens the call raises. *)
Theorem wire_form_needs_four_numbers (runtime : PyRuntime)
    (bboxStr : string) (bbox : BoundingBox) :
  bboxFromString bboxStr = Ok bbox <->
  exists (t0 t1 t2 t3 : string) (more : list string) (f0 f1 f2 f3 : Q),
    split bboxStr = t0 :: t1 :: t2 :: t3 :: more
    /\ pyfloat t0 = Ok f0 /\ pyfloat t1 = Ok f1
    /\ pyfloat t2 = Ok f2 /\ pyfloat t3 = Ok f3
    /\ bbox = mkBBox f0 f1 f2 f3 "EPSG:4326".
Proof.
  unfold bboxFromString. cbv zeta. split.
  - destruct (split bboxStr) as [| t0 [| t1 [| t2 [| t3 more]]]];
      cbn [item nth_error bind]; try discriminate.
    + destruct (pyfloat t0); cbn [bind]; discriminate.
    + destruct (pyfloat t0); cbn [bind]; [| discriminate].
      destruct (pyfloat t1); cbn [bind]; discriminate.
    + destruct (pyfloat t0); cbn [bind]; [| discriminate].
      destruct (pyfloat t1); cbn [bind]; [| discriminate].
      destruct (pyfloat t2); cbn [bind]; discriminate.
    + destruct (pyfloat t0) as [f0 |] eqn:P0; cbn [bind]; [| discriminate].
      destruct (pyfloat t1) as [f1 |] eqn:P1; cbn [bind]; [| discriminate].
      destruct (pyfloat t2) as [f2 |] eqn:P2; cbn [bind]; [| discriminate].
      destruct (pyfloat t3) as [f3 |] eqn:P3; cbn [bind]; [| discriminate].
      intros [= <-]. exists t0, t1, t2, t3, more, f0, f1, f2, f3.
      repeat split; assumption.
  - intros (t0 & t1 & t2 & t3 & more & f0 & f1 & f2 & f3
            & Hs & P0 & P1 & P2 & P3 & ->).
    rewrite Hs. cbn [item nth_error bind].
    rewrite P0. cbn [bind]. rewrite P1. cbn [bind].
    rewrite P2. cbn [bind]. rewrite P3. reflexivity.
Qed.

(** ** Operations that shell out *)

Section ShellProperties.
Context {oslib : OSLib} {runtime : PyRuntime}.

Lemma resample_checks_pass (config : Config) (files : FileSystem)
    (outputDir outRasterFilename : string) (trX trY : Q)
    (resampleMethod gdalCmdPath : string) :
  config "GDAL/OGR" "PATH_OF_GDAL_WARP" = Ok gdalCmdPath ->
  access_X files gdalCmdPath = true ->
  isdir files outputDir = true ->
  access_W files outputDir = true ->
  0 < trX -> 0 < trY ->
  In resampleMethod RASTER_RESAMPLE_METHOD ->
  resampleRaster_checks config files outputDir outRasterFilename trX trY
    resampleMethod
  = Ok (abspath gdalCmdPath, path_join (abspath outputDir) outRasterFilename).
Proof.
  intros Hcfg Hx Hdir Hw HX HY Hm. unfold resampleRaster_checks.
  rewrite Hcfg. cbn [bind]. rewrite Hx, Hdir, Hw. cbn [raise_unless bind].
  apply Qle_bool_false in HX. apply Qle_bool_false in HY.
  rewrite HX, HY. cbn [negb raise_unless bind].
  assert (Hin : existsb (String.eqb resampleMethod) RASTER_RESAMPLE_METHOD = true).
  { apply existsb_exists. exists resampleMethod.
    split; [exact Hm | apply String.eqb_refl]. }
  rewrite Hin. reflexivity.
Qed.

(** The path of the output does not depend on the other checks. *)
Lemma resample_checks_path (config : Config) (files : FileSystem)
    (outputDir outRasterFilename : string) (trX trY : Q)
    (resampleMethod cmd out : string) :
  resampleRaster_checks config files outputDir outRasterFilename trX trY
    resampleMethod = Ok (cmd, out) ->
  out = path_join (abspath outputDir) outRasterFilename.
Proof.
  unfold resampleRaster_checks.
  repeat match goal with
  | |- context [bind ?r _] => destruct r; cbn [bind]; [| discriminate]
  end.
  intros [= _ <-]. reflexivity.
Qed.
End ShellProperties.

(** When the output raster exists, [resampleRaster] hands no command to
    the shell and leaves the world as it was, whatever its other
    arguments; with a configured executable [gdalwarp], a writable output
    directory, positive resolutions and a known resampling method it
    returns normally. *)
Theorem resample_skips_existing_output
    (oslib : OSLib) (runtime : PyRuntime) (config : Config)
    (outputDir inRasterFilepath outRasterFilename : string)
    (s_srs : option string) (t_srs : string) (trX trY : Q)
    (resampleMethod : string) (w : World) :
  exists_ (fs w) (path_join (abspath outputDir) outRasterFilename) = true ->
  snd (resampleRaster config outputDir inRasterFilepath outRasterFilename
         s_srs t_srs trX trY resampleMethod w) = w
  /\ (forall gdalCmdPath : string,
        config "GDAL/OGR" "PATH_OF_GDAL_WARP" = Ok gdalCmdPath ->
        access_X (fs w) gdalCmdPath = true ->
        isdir (fs w) outputDir = true ->
        access_W (fs w) outputDir = true ->
        0 < trX -> 0 < trY ->
        In resampleMethod RASTER_RESAMPLE_METHOD ->
        resampleRaster config outputDir inRasterFilepath outRasterFilename
          s_srs t_srs trX trY resampleMethod w = (Ok tt, w)).
Proof.
  intros Hex. split.
  - unfold resampleRaster.
    destruct (resampleRaster_checks config (fs w) outputDir outRasterFilename
                trX trY resampleMethod) as [[cmd out] | e] eqn:Hchk;
      [| reflexivity].
    apply resample_checks_path in Hchk. subst out. rewrite Hex. reflexivity.
  - intros p Hcfg Hx Hdir Hw HX HY Hm. unfold resampleRaster.
    rewrite (resample_checks_pass config (fs w) outputDir outRasterFilename
               trX trY resampleMethod p Hcfg Hx Hdir Hw HX HY Hm).
    rewrite Hex. reflexivity.
Qed.

Lemma resample_skips_existing_output_witness :
  snd (resampleRaster tools_config "/proj" "/tmp/in.tif" "dem.tif" None
         "EPSG:26918" 3 3 "bilinear" (mkWorld project_files_with_outputs []))
  = mkWorld project_files_with_outputs [].
Proof.
  apply (resample_skips_existing_output posix_oslib decimal_runtime
           tools_config "/proj" "/tmp/in.tif" "dem.tif" None "EPSG:26918"
           3 3 "bilinear" (mkWorld project_files_with_outputs [])).
  reflexivity.
Defined.

(** With valid arguments and no output raster yet, [resampleRaster] hands
    exactly one command to the shell, the [gdalwarp] command line, leaves
    the files as the command leaves them, and returns normally exactly
    when the status of the command is 0 (any other status is an
    exception). *)
Theorem resample_runs_gdalwarp_once
    (oslib : OSLib) (runtime : PyRuntime) (config : Config)
    (outputDir inRasterFilepath outRasterFilename : string)
    (s_srs : option string) (t_srs : string) (trX trY : Q)
    (resampleMethod gdalCmdPath : string) (w : World) :
  config "GDAL/OGR" "PATH_OF_GDAL_WARP" = Ok gdalCmdPath ->
  access_X (fs w) gdalCmdPath = true ->
  isdir (fs w) outputDir = true ->
  access_W (fs w) outputDir = true ->
  0 < trX -> 0 < trY ->
  In resampleMethod RASTER_RESAMPLE_METHOD ->
  exists_ (fs w) (path_join (abspath outputDir) outRasterFilename) = false ->
  let command :=
    resampleRaster_command (abspath gdalCmdPath) s_srs t_srs trX trY
      resampleMethod inRasterFilepath
      (path_join (abspath outputDir) outRasterFilename) in
  let result :=
    resampleRaster config outputDir inRasterFilepath outRasterFilename
      s_srs t_srs trX trY resampleMethod w in
  invoked (snd result) = command :: invoked w
  /\ fs (snd result) = snd (os_system command (fs w))
  /\ (fst result = Ok tt <-> fst (os_system command (fs w)) = 0%Z)
  /\ (fst (os_system command (fs w)) <> 0%Z ->
      exists msg : string, fst result = Raise (Exception msg)).
Proof.
  intros Hcfg Hx Hdir Hw HX HY Hm Hex command result.
  subst result. unfold resampleRaster.
  rewrite (resample_checks_pass config (fs w) outputDir outRasterFilename
             trX trY resampleMethod gdalCmdPath Hcfg Hx Hdir Hw HX HY Hm).
  rewrite Hex. cbn [negb]. fold command.
  destruct (os_system command (fs w)) as [rc files'] eqn:Hsys. cbn [fst snd].
  destruct (rc =? 0)%Z eqn:Hrc; cbn [negb fst snd invoked fs].
  - apply Z.eqb_eq in Hrc. subst rc.
    split; [reflexivity |]. split; [reflexivity |].
    split; [split; intros _; reflexivity |].
    intros Hne. exfalso. apply Hne. reflexivity.
  - apply Z.eqb_neq in Hrc.
    split; [reflexivity |]. split; [reflexivity |].
    split; [split; [discriminate | intros H0; exfalso; exact (Hrc H0)] |].
    intros _. eauto.
Qed.

Lemma resample_runs_gdalwarp_once_witness :
  invoked (snd (resampleRaster tools_config "/proj" "/tmp/in.tif" "out.tif"
                  (Some "EPSG:4326") "EPSG:26918" 3 (7 # 2) "bilinear"
                  (mkWorld project_files_with_outputs [])))
  = ["/usr/bin/gdalwarp -q -s_srs EPSG:4326 -t_srs EPSG:26918 -tr 3.000000 3.500000 -r bilinear -of GTiff -co 'COMPRESS=LZW' /tmp/in.tif /proj/out.tif"].
Proof.
  apply (resample_runs_gdalwarp_once posix_oslib decimal_runtime tools_config
           "/proj" "/tmp/in.tif" "out.tif" (Some "EPSG:4326") "EPSG:26918"
           3 (7 # 2) "bilinear" "/usr/bin/gdalwarp"
           (mkWorld project_files_with_outputs []));
    try reflexivity.
  simpl. tauto.
Defined.

(** Whenever [convertGMLToShapefile] returns, the name it returns is the
    layer name followed by [.shp]; and when that shapefile exists in the
    output directory, the call runs no command and leaves the world as it
    was. *)
Theorem gml_conversion_names_and_skips (oslib : OSLib) (config : Config)
    (outputDir gmlFilepath layerName t_srs : string) (w : World) :
  (forall name : string,
     fst (convertGMLToShapefile config outputDir gmlFilepath layerName t_srs w)
     = Ok name -> name = layerName ++ ".shp")
  /\ (exists_ (fs w) (path_join (abspath outputDir) (layerName ++ ".shp")) = true ->
      snd (convertGMLToShapefile config outputDir gmlFilepath layerName t_srs w)
      = w).
Proof.
  unfold convertGMLToShapefile, convertGMLToShapefile_checks.
  destruct (config "GDAL/OGR" "PATH_OF_OGR2OGR") as [p | e]; cbn [bind];
    [| split; [discriminate | reflexivity]].
  destruct (isdir (fs w) outputDir); cbn [raise_unless bind];
    [| split; [discriminate | reflexivity]].
  destruct (access_W (fs w) outputDir); cbn [raise_unless bind];
    [| split; [discriminate | reflexivity]].
  split.
  - intros name.
    destruct (exists_ (fs w) (path_join (abspath outputDir) (layerName ++ ".shp")));
      cbn [negb]; [intros [= <-]; reflexivity |].
    destruct (run_command _ w) as [rc w'].
    destruct (rc =? 0)%Z; cbn [negb fst]; [| discriminate].
    intros [= <-]. reflexivity.
  - intros Hex. rewrite Hex. reflexivity.
Qed.

Lemma gml_conversion_names_and_skips_witness :
  fst (convertGMLToShapefile tools_config "/proj" "/tmp/soil.gml" "soil"
         "EPSG:26918" (mkWorld project_files []))
  = Ok "soil.shp" /\ "soil.shp" = "soil" ++ ".shp".
Proof.
  split; [reflexivity |].
  apply (proj1 (gml_conversion_names_and_skips posix_oslib tools_config
                  "/proj" "/tmp/soil.gml" "soil" "EPSG:26918"
                  (mkWorld project_files []))).
  reflexivity.
Defined.

(** [copyRasterToGeoTIFF] on an input raster that is not readable, past
    the checks of the tool and of the directory, raises [TypeError] (the
    message of the intended [IOError] is applied like a function) and runs
    no command. *)
Theorem unreadable_raster_raises_TypeError (oslib : OSLib) (config : Config)
    (outputDir inRasterPath outRasterName gdalCmdPath : string) (w : World) :
  config "GDAL/OGR" "PATH_OF_GDAL_TRANSLATE" = Ok gdalCmdPath ->
  access_X (fs w) gdalCmdPath = true ->
  isdir (fs w) outputDir = true ->
  access_W (fs w) outputDir = true ->
  access_R (fs w) inRasterPath = false ->
  copyRasterToGeoTIFF config outputDir inRasterPath outRasterName w
  = (Raise TypeError, w).
Proof.
  intros Hcfg Hx Hdir Hw Hr. unfold copyRasterToGeoTIFF, copyRasterToGeoTIFF_checks.
  rewrite Hcfg. cbn [bind]. rewrite Hx, Hdir, Hw, Hr. reflexivity.
Qed.

Lemma unreadable_raster_raises_TypeError_witness :
  copyRasterToGeoTIFF tools_config "/proj" "/tmp/in.tif" "out.tif"
    (mkWorld project_files_with_outputs [])
  = (Raise TypeError, mkWorld project_files_with_outputs []).
Proof.
  apply (unreadable_raster_raises_TypeError posix_oslib tools_config "/proj"
           "/tmp/in.tif" "out.tif" "/usr/bin/gdal_translate"
           (mkWorld project_files_with_outputs [])); reflexivity.
Defined.

(** [copyRasterToGeoTIFF] has no guard on the output: past its checks it
    always hands the [gdal_translate] command to the shell, also when the
    output raster exists. *)
Theorem raster_copy_always_runs (oslib : OSLib) (config : Config)
    (outputDir inRasterPath outRasterName gdalCmdPath : string) (w : World) :
  config "GDAL/OGR" "PATH_OF_GDAL_TRANSLATE" = Ok gdalCmdPath ->
  access_X (fs w) gdalCmdPath = true ->
  isdir (fs w) outputDir = true ->
  access_W (fs w) outputDir = true ->
  access_R (fs w) inRasterPath = true ->
  invoked (snd (copyRasterToGeoTIFF config outputDir inRasterPath
                  outRasterName w))
  = copyRasterToGeoTIFF_command (abspath gdalCmdPath) inRasterPath
      (path_join (abspath outputDir) outRasterName) :: invoked w.
Proof.
  intros Hcfg Hx Hdir Hw Hr. unfold copyRasterToGeoTIFF, copyRasterToGeoTIFF_checks.
  rewrite Hcfg. cbn [bind]. rewrite Hx, Hdir, Hw, Hr. cbn [raise_unless bind].
  unfold run_command.
  destruct (os_system _ (fs w)) as [rc files'].
  destruct (rc =? 0)%Z; reflexivity.
Qed.

Lemma raster_copy_always_runs_witness :
  exists_ project_files_with_outputs "/proj/dem.tif" = true
  /\ invoked (snd (copyRasterToGeoTIFF tools_config "/proj" "/proj/dem.tif"
                     "dem.tif" (mkWorld project_files_with_outputs [])))
     = ["/usr/bin/gdal_translate -q -of GTiff -co 'COMPRESS=LZW' /proj/dem.tif /proj/dem.tif"].
Proof.
  split; [reflexivity |].
  apply (raster_copy_always_runs posix_oslib tools_config "/proj"
           "/proj/dem.tif" "dem.tif" "/usr/bin/gdal_translate"
           (mkWorld project_files_with_outputs [])); reflexivity.
Defined.

(** A resampling method outside [RASTER_RESAMPLE_METHOD] ends
    [extractTileFromRasterByRasterExtent] in [AssertionError] before the
    configuration is read, and ends [resampleRaster] in [AssertionError]
    once its other checks have passed; neither runs a command. *)
Theorem unknown_resample_method_is_refused (oslib : OSLib)
    (runtime : PyRuntime) (gdal : GDAL) (config : Config)
    (outputDir extentRasterFilepath inRasterFilepath outRasterFilename
       resampleMethod : string)
    (s_srs : option string) (t_srs : string) (trX trY : Q) (w : World) :
  ~ In resampleMethod RASTER_RESAMPLE_METHOD ->
  extractTileFromRasterByRasterExtent config outputDir extentRasterFilepath
    inRasterFilepath outRasterFilename resampleMethod w
  = (Raise AssertionError, w)
  /\ (forall gdalCmdPath : string,
        config "GDAL/OGR" "PATH_OF_GDAL_WARP" = Ok gdalCmdPath ->
        access_X (fs w) gdalCmdPath = true ->
        isdir (fs w) outputDir = true ->
        access_W (fs w) outputDir = true ->
        0 < trX -> 0 < trY ->
        resampleRaster config outputDir inRasterFilepath outRasterFilename
          s_srs t_srs trX trY resampleMethod w = (Raise AssertionError, w)).
Proof.
  intros Hm.
  assert (Hno : existsb (String.eqb resampleMethod) RASTER_RESAMPLE_METHOD = false).
  { destruct (existsb _ RASTER_RESAMPLE_METHOD) eqn:E; [| reflexivity].
    apply existsb_exists in E. destruct E as (m & Hin & Heq).
    apply String.eqb_eq in Heq. subst m. contradiction. }
  split.
  - unfold extractTileFromRasterByRasterExtent, extractByExtent_checks.
    rewrite Hno. reflexivity.
  - intros p Hcfg Hx Hdir Hw HX HY.
    unfold resampleRaster, resampleRaster_checks.
    rewrite Hcfg. cbn [bind]. rewrite Hx, Hdir, Hw. cbn [raise_unless bind].
    apply Qle_bool_false in HX. apply Qle_bool_false in HY.
    rewrite HX, HY. cbn [negb raise_unless bind]. rewrite Hno. reflexivity.
Qed.

Lemma unknown_resample_method_is_refused_witness :
  extractTileFromRasterByRasterExtent tools_config "/proj" "/proj/dem.tif"
    "/proj/dem.tif" "out.tif" "nearest" (mkWorld project_files_with_outputs [])
  = (Raise AssertionError, mkWorld project_files_with_outputs []).
Proof.
  refine (proj1 (unknown_resample_method_is_refused posix_oslib decimal_runtime
                   sample_gdal tools_config "/proj" "/proj/dem.tif"
                   "/proj/dem.tif" "out.tif" "nearest" None "EPSG:4326" 1 1
                   (mkWorld project_files_with_outputs []) _)).
  simpl. intros H.
  repeat (destruct H as [H | H]; [discriminate H |]). exact H.
Defined.


(** ** Bounding box of a raster *)

(** For a readable north-up raster (no rotation terms, a pixel width that
    is not negative and a pixel height that is not positive) whose
    transformation to WGS84 is the identity, [getBoundingBoxForRaster]
    returns the ordered box from the origin of the geotransform to the
    corner [cols] pixels east and [rows] pixels south of it, tagged
    EPSG:4326. *)
Theorem north_up_raster_box (gdal : GDAL) (files : FileSystem) (filename : string)
    (hDataset : RasterDataset) (pszProjection : string) (g : GeoTransform) :
  access_R files filename = true ->
  gdal_Open filename = Some hDataset ->
  GetProjectionRef hDataset = Some pszProjection ->
  GetGeoTransform_or_null hDataset = Some g ->
  (forall x y : Q, TransformPoint pszProjection x y 0 = (x, y, 0)) ->
  gt2 g == 0 -> gt4 g == 0 -> 0 <= gt1 g -> gt5 g <= 0 ->
  exists bbox : BoundingBox,
    getBoundingBoxForRaster files filename = Ok bbox
    /\ srs bbox = "EPSG:4326"
    /\ minX bbox == gt0 g
    /\ maxY bbox == gt3 g
    /\ maxX bbox == gt0 g + gt1 g * inject_Z (Z.of_nat (RasterXSize hDataset))
    /\ minY bbox == gt3 g + gt5 g * inject_Z (Z.of_nat (RasterYSize hDataset))
    /\ ordered bbox.
Proof.
  intros Hr Hopen Hproj Hgt Hid H2 H4 H1 H5.
  unfold getBoundingBoxForRaster, _transformPixelsToCoordinates.
  rewrite Hr, Hopen, Hproj, Hgt. cbn [raise_unless bind]. cbv zeta.
  rewrite !Hid. eexists. split; [reflexivity |].
  cbn [srs minX minY maxX maxY]. unfold ordered. cbn [minX minY maxX maxY].
  assert (Hc : 0 <= inject_Z (Z.of_nat (RasterXSize hDataset))).
  { change 0 with (inject_Z 0). rewrite <- Zle_Qle. lia. }
  assert (Hrows : 0 <= inject_Z (Z.of_nat (RasterYSize hDataset))).
  { change 0 with (inject_Z 0). rewrite <- Zle_Qle. lia. }
  set (c := inject_Z (Z.of_nat (RasterXSize hDataset))) in *.
  set (r := inject_Z (Z.of_nat (RasterYSize hDataset))) in *.
  assert (E2 : gt2 g * r == 0) by (rewrite H2; ring).
  assert (E4 : gt4 g * c == 0) by (rewrite H4; ring).
  assert (P1 : 0 <= gt1 g * c) by (apply Qmult_le_0_compat; assumption).
  assert (P5 : gt5 g * r <= 0).
  { assert (0 <= (- gt5 g) * r) by (apply Qmult_le_0_compat; lra). lra. }
  repeat split; try reflexivity; try lra.
Qed.

Lemma north_up_raster_box_witness :
  exists bbox : BoundingBox,
    getBoundingBoxForRaster project_files_with_outputs "/proj/dem.tif" = Ok bbox
    /\ srs bbox = "EPSG:4326"
    /\ minX bbox == -77
    /\ maxY bbox == 40
    /\ maxX bbox == -77 + (1 # 100) * inject_Z (Z.of_nat 100)
    /\ minY bbox == 40 + (-1 # 100) * inject_Z (Z.of_nat 50)
    /\ ordered bbox.
Proof.
  apply (north_up_raster_box sample_gdal
           project_files_with_outputs "/proj/dem.tif" dem_raster
           "GEOGCS[WGS 84]" (mkGT (-77) (1 # 100) 0 40 0 (-1 # 100)));
    try reflexivity; simpl; try lra; discriminate.
Defined.

(** [getBoundingBoxForRaster] on a file that is not readable raises
    [IOError]; on a readable file that GDAL cannot open it raises a plain
    exception; on a dataset without projection or without geotransform it
    fails an assertion. *)
Theorem raster_box_failures (gdal : GDAL) (files : FileSystem) (filename : string) :
  (access_R files filename = false ->
   exists msg : string,
     getBoundingBoxForRaster files filename = Raise (IOError EACCES msg))
  /\ (access_R files filename = true -> gdal_Open filename = None ->
      getBoundingBoxForRaster files filename
      = Raise (Exception "Unable to open raster dataset"))
  /\ (forall hDataset : RasterDataset,
        access_R files filename = true ->
        gdal_Open filename = Some hDataset ->
        GetProjectionRef hDataset = None
        \/ GetGeoTransform_or_null hDataset = None ->
        getBoundingBoxForRaster files filename = Raise AssertionError).
Proof.
  unfold getBoundingBoxForRaster. split; [| split].
  - intros ->. cbn [raise_unless bind]. eauto.
  - intros -> ->. reflexivity.
  - intros hDataset -> -> [-> | Hgt]; cbn [raise_unless bind];
      [reflexivity |].
    destruct (GetProjectionRef hDataset); [rewrite Hgt |]; reflexivity.
Qed.

Lemma raster_box_failures_witness :
  exists msg : string,
    getBoundingBoxForRaster project_files_with_outputs "/proj/missing.tif"
    = Raise (IOError EACCES msg).
Proof.
  apply (proj1 (raster_box_failures sample_gdal
                  project_files_with_outputs "/proj/missing.tif")).
  reflexivity.
Defined.

(** ** Deleting artifacts *)

Section DeletingProperties.
Context {unlink : Unlink}.

(** The files that exist after the removal of [p]. *)
Lemma os_remove_exists (files files' : FileSystem) (p : string) :
  os_remove files p = Deleted files' ->
  forall q : string,
    exists_ files' q = negb (String.eqb q p) && exists_ files q.
Proof.
  unfold os_remove. destruct (removable p); [| discriminate].
  intros [= <-] q. reflexivity.
Qed.

Lemma remove_if_exists_exists (files files' : FileSystem) (p : string) :
  remove_if_exists files p = Deleted files' ->
  forall q : string,
    exists_ files' q = negb (String.eqb q p) && exists_ files q.
Proof.
  unfold remove_if_exists. destruct (exists_ files p) eqn:Hp.
  - apply os_remove_exists.
  - intros [= <-] q. destruct (String.eqb q p) eqn:E; [| reflexivity].
    apply String.eqb_eq in E. subst q. rewrite Hp. reflexivity.
Qed.

Lemma remove_if_exists_absent (files : FileSystem) (p : string) :
  exists_ files p = false -> remove_if_exists files p = Deleted files.
Proof. unfold remove_if_exists. intros ->. reflexivity. Qed.

Lemma remove_companions_exists (fileName : string) (exts : list string) :
  forall files files' : FileSystem,
    remove_companions files fileName exts = Deleted files' ->
    forall q : string,
      exists_ files' q
      = negb (existsb (String.eqb q) (map (fun ext => fileName ++ "." ++ ext) exts))
        && exists_ files q.
Proof.
  induction exts as [| ext exts IH]; intros files files'; cbn [remove_companions].
  - intros [= <-] q. reflexivity.
  - destruct (remove_if_exists files (fileName ++ "." ++ ext)) as [files1 | p]
      eqn:H1; [| discriminate].
    intros Hrest q. rewrite (IH _ _ Hrest q).
    rewrite (remove_if_exists_exists _ _ _ H1 q).
    cbn [map existsb]. rewrite negb_orb.
    destruct (String.eqb q (fileName ++ "." ++ ext));
      destruct (existsb _ _); reflexivity.
Qed.

Lemma remove_companions_absent (fileName : string) (exts : list string)
    (files : FileSystem) :
  (forall ext : string, In ext exts ->
     exists_ files (fileName ++ "." ++ ext) = false) ->
  remove_companions files fileName exts = Deleted files.
Proof.
  induction exts as [| ext exts IH]; intros Habs; cbn [remove_companions].
  - reflexivity.
  - rewrite remove_if_exists_absent by (apply Habs; left; reflexivity).
    apply IH. intros e He. apply Habs. right. exact He.
Qed.


Lemma deleteShapefile_exists (files files' : FileSystem) (shpfilePath : string) :
  deleteShapefile files shpfilePath = Deleted files' ->
  forall q : string,
    exists_ files' q
    = negb (existsb (String.eqb q) (shapefile_group shpfilePath))
      && exists_ files q.
Proof.
  unfold deleteShapefile. cbv zeta.
  destruct (remove_if_exists files shpfilePath) as [files1 | p] eqn:H1;
    [| discriminate].
  intros Hrest q.
  rewrite (remove_companions_exists _ _ _ _ Hrest q).
  rewrite (remove_if_exists_exists _ _ _ H1 q).
  unfold shapefile_group. cbn [map existsb String.append].
  repeat match goal with
  | |- context [String.eqb q ?x] => destruct (String.eqb q x)
  end;
  destruct (exists_ files q); reflexivity.
Qed.

Lemma deleteGeoTiff_exists (files files' : FileSystem) (geoTiffPath : string) :
  deleteGeoTiff files geoTiffPath = Deleted files' ->
  forall q : string,
    exists_ files' q
    = negb (existsb (String.eqb q) (geotiff_group geoTiffPath))
      && exists_ files q.
Proof.
  unfold deleteGeoTiff. cbv zeta.
  destruct (remove_if_exists files geoTiffPath) as [files1 | p] eqn:H1;
    [| discriminate].
  intros Hrest q.
  rewrite (remove_companions_exists _ _ _ _ Hrest q).
  rewrite (remove_if_exists_exists _ _ _ H1 q).
  unfold geotiff_group. cbn [map existsb String.append].
  destruct (String.eqb q geoTiffPath); destruct (String.eqb q _);
    destruct (exists_ files q); reflexivity.
Qed.
End DeletingProperties.





(** Deleting twice is safe: after a deletion that succeeded, a second
    deletion of the same path removes nothing, cannot fail and returns the
    same files, for shapefiles and for GeoTIFFs. *)
Theorem deleting_twice_is_safe (unlink : Unlink) (files files' : FileSystem)
    (path : string) :
  (deleteShapefile files path = Deleted files' ->
   deleteShapefile files' path = Deleted files')
  /\ (deleteGeoTiff files path = Deleted files' ->
      deleteGeoTiff files' path = Deleted files').
Proof.
  split; intros Hdel.
  - pose proof (deleteShapefile_exists _ _ _ Hdel) as Hex.
    assert (Habs : forall q, In q (shapefile_group path) -> exists_ files' q = false).
    { intros q Hq. rewrite Hex.
      assert (Hin : existsb (String.eqb q) (shapefile_group path) = true).
      { apply existsb_exists. exists q. split; [exact Hq | apply String.eqb_refl]. }
      rewrite Hin. reflexivity. }
    unfold deleteShapefile. cbv zeta.
    rewrite remove_if_exists_absent by (apply Habs; left; reflexivity).
    apply remove_companions_absent. intros ext Hext. apply Habs.
    unfold shapefile_group. simpl in Hext.
    destruct Hext as [<- | [<- | [<- | []]]]; simpl; tauto.
  - pose proof (deleteGeoTiff_exists _ _ _ Hdel) as Hex.
    assert (Habs : forall q, In q (geotiff_group path) -> exists_ files' q = false).
    { intros q Hq. rewrite Hex.
      assert (Hin : existsb (String.eqb q) (geotiff_group path) = true).
      { apply existsb_exists. exists q. split; [exact Hq | apply String.eqb_refl]. }
      rewrite Hin. reflexivity. }
    unfold deleteGeoTiff. cbv zeta.
    rewrite remove_if_exists_absent by (apply Habs; left; reflexivity).
    apply remove_companions_absent. intros ext Hext. apply Habs.
    unfold geotiff_group. simpl in Hext.
    destruct Hext as [<- | []]; simpl; tauto.
Qed.

(** When nothing of the group exists, [deleteShapefile] and
    [deleteGeoTiff] return the files unchanged without calling
    [os.remove]: an absent companion is never an error. *)
Theorem deleting_nothing_is_no_error (unlink : Unlink) (files : FileSystem)
    (path : string) :
  ((forall q : string, In q (shapefile_group path) -> exists_ files q = false) ->
   deleteShapefile files path = Deleted files)
  /\ ((forall q : string, In q (geotiff_group path) -> exists_ files q = false) ->
      deleteGeoTiff files path = Deleted files).
Proof.
  split; intros Habs.
  - unfold deleteShapefile. cbv zeta.
    rewrite remove_if_exists_absent by (apply Habs; left; reflexivity).
    apply remove_companions_absent. intros ext Hext. apply Habs.
    unfold shapefile_group. simpl in Hext.
    destruct Hext as [<- | [<- | [<- | []]]]; simpl; tauto.
  - unfold deleteGeoTiff. cbv zeta.
    rewrite remove_if_exists_absent by (apply Habs; left; reflexivity).
    apply remove_companions_absent. intros ext Hext. apply Habs.
    unfold geotiff_group. simpl in Hext.
    destruct Hext as [<- | []]; simpl; tauto.
Qed.

Lemma deleting_twice_is_safe_witness :
  exists files' : FileSystem,
    deleteShapefile project_files_with_outputs "/proj/gage.shp" = Deleted files'
    /\ deleteShapefile files' "/proj/gage.shp" = Deleted files'.
Proof.
  eexists. split; [reflexivity |].
  apply (proj1 (deleting_twice_is_safe permissive_unlink
                  project_files_with_outputs _ "/proj/gage.shp")).
  reflexivity.
Defined.

Lemma deleting_nothing_is_no_error_witness :
  deleteShapefile project_files "/proj/gage.shp" = Deleted project_files.
Proof.
  apply (proj1 (deleting_nothing_is_no_error permissive_unlink project_files
                  "/proj/gage.shp")).
  intros q [<- | [<- | [<- | [<- | []]]]]; reflexivity.
Defined.

(** ** Writing shapefiles *)

Lemma skipn_nth_error {A : Type} (l : list A) :
  forall (i : nat) (x : A),
    nth_error l i = Some x -> skipn i l = x :: skipn (S i) l.
Proof.
  induction l as [| a l IH]; intros [| i] x; simpl; try discriminate.
  - intros [= <-]. reflexivity.
  - intros H. apply IH. exact H.
Qed.

Section PointShapefileProperties.
Context {oslib : OSLib} {ogr : OGR} {ogrpoints : OGRPoints}.

(** The loop over the indices writes the IDs and the coordinates pair by
    pair. *)
Lemma point_loop_zip (pointIDAttr : string) (pointIDs : list string)
    (coordinates : list (Q * Q)) :
  List.length pointIDs = List.length coordinates ->
  (forall (id : string) (x y : Q),
     CreatePointFeature pointIDAttr id x y = Ok 0%Z) ->
  forall (todo i : nat) (written : list (string * (Q * Q))),
    (i + todo = List.length coordinates)%nat ->
    point_loop todo i pointIDAttr pointIDs coordinates written
    = Ok (written ++ combine (skipn i pointIDs) (skipn i coordinates))%list.
Proof.
  intros Hlen Hok. induction todo as [| todo IH]; intros i written Hi;
    cbn [point_loop].
  - rewrite !skipn_all2 by lia. simpl. rewrite app_nil_r. reflexivity.
  - destruct (nth_error coordinates i) as [c |] eqn:Hc;
      [| apply nth_error_None in Hc; lia].
    destruct (nth_error pointIDs i) as [id |] eqn:Hid;
      [| apply nth_error_None in Hid; lia].
    unfold pair_item, item. rewrite Hc, Hid. cbn [bind].
    rewrite Hok. cbn [bind assert Z.eqb].
    rewrite IH by lia.
    rewrite (skipn_nth_error _ _ _ Hc), (skipn_nth_error _ _ _ Hid).
    cbn [combine]. rewrite <- app_assoc. destruct c as [x y]. reflexivity.
Qed.
End PointShapefileProperties.

(** With as many IDs as coordinate pairs, a writable output directory
    without the shapefile and OGR calls that succeed,
    [writeCoordinatePairsToPointShapefile] writes one point per pair, the
    i-th with the i-th ID, in a layer with CRS EPSG:4326 and a string ID
    field of width 32, and returns the layer name followed by [.shp]. *)
Theorem point_shapefile_pairs_ids_with_points (oslib : OSLib) (ogr : OGR)
    (ogrpoints : OGRPoints) (files : FileSystem)
    (outputDir layerName pointIDAttr : string) (pointIDs : list string)
    (coordinates : list (Q * Q)) :
  List.length pointIDs = List.length coordinates ->
  isdir files outputDir = true ->
  access_W files outputDir = true ->
  exists_ files (path_join (abspath outputDir) (layerName ++ ".shp")) = false ->
  GetDriverByName "ESRI Shapefile" = true ->
  CreateDataSource (path_join (abspath outputDir) (layerName ++ ".shp")) = Ok true ->
  CreateLayer layerName 4326%Z wkbPoint = Ok true ->
  CreateField pointIDAttr OFTString 32 = Ok 0%Z ->
  (forall (id : string) (x y : Q),
     CreatePointFeature pointIDAttr id x y = Ok 0%Z) ->
  writeCoordinatePairsToPointShapefile files outputDir layerName pointIDAttr
    pointIDs coordinates
  = Ok (layerName ++ ".shp",
        mkWrittenPoints (path_join (abspath outputDir) (layerName ++ ".shp"))
          layerName 4326%Z pointIDAttr 32 (combine pointIDs coordinates)).
Proof.
  intros Hlen Hdir Hw Hnew Hdrv Hds Hlyr Hfld Hft.
  unfold writeCoordinatePairsToPointShapefile. cbv zeta. unfold WGS84_EPSG.
  change ("." ++ "shp") with ".shp".
  rewrite Hlen, Nat.eqb_refl. cbn [assert bind].
  rewrite Hdir, Hw, Hnew, Hdrv. cbn [negb raise_unless assert bind].
  rewrite Hds. cbn [assert bind]. rewrite Hlyr. cbn [assert bind].
  rewrite Hfld. cbn [assert bind Z.eqb].
  rewrite (point_loop_zip pointIDAttr pointIDs coordinates Hlen Hft
             (List.length coordinates) 0 [] eq_refl).
  reflexivity.
Qed.

Lemma point_shapefile_pairs_ids_with_points_witness :
  writeCoordinatePairsToPointShapefile project_files "/proj" "gage" "gage_id"
    ["01589312"; "01589330"] [(-77, 39); (-76, 40)]
  = Ok ("gage.shp",
        mkWrittenPoints "/proj/gage.shp" "gage" 4326%Z "gage_id" 32
          [("01589312", (-77, 39)); ("01589330", (-76, 40))]).
Proof.
  apply (point_shapefile_pairs_ids_with_points posix_oslib sample_ogr
           sample_ogrpoints project_files "/proj" "gage" "gage_id"
           ["01589312"; "01589330"] [(-77, 39); (-76, 40)]);
    reflexivity.
Defined.

(** With a number of IDs that differs from the number of coordinate
    pairs, [writeCoordinatePairsToPointShapefile] fails its first
    assertion, whatever the directory and the files. *)
Theorem point_shapefile_needs_matching_lengths (oslib : OSLib) (ogr : OGR)
    (ogrpoints : OGRPoints) (files : FileSystem)
    (outputDir layerName pointIDAttr : string) (pointIDs : list string)
    (coordinates : list (Q * Q)) :
  List.length pointIDs <> List.length coordinates ->
  writeCoordinatePairsToPointShapefile files outputDir layerName pointIDAttr
    pointIDs coordinates = Raise AssertionError.
Proof.
  intros Hlen. unfold writeCoordinatePairsToPointShapefile. cbv zeta.
  apply Nat.eqb_neq in Hlen. rewrite Hlen. reflexivity.
Qed.

Lemma point_shapefile_needs_matching_lengths_witness :
  writeCoordinatePairsToPointShapefile project_files "/proj" "gage" "gage_id"
    ["01589312"; "01589330"] [(-77, 39)] = Raise AssertionError.
Proof.
  apply (point_shapefile_needs_matching_lengths posix_oslib sample_ogr
           sample_ogrpoints project_files "/proj" "gage" "gage_id"
           ["01589312"; "01589330"] [(-77, 39)]).
  discriminate.
Defined.

(** Neither writer overwrites: when the shapefile of the layer exists in
    a writable output directory, [writeBboxPolygonToShapefile] and
    [writeCoordinatePairsToPointShapefile] raise an exception before any
    OGR call, whatever the box or the points. *)
Theorem shapefile_writers_never_overwrite (oslib : OSLib) (ogr : OGR)
    (ogrpoints : OGRPoints) (files : FileSystem) (bbox : BoundingBox)
    (outputDir layerName pointIDAttr : string) (pointIDs : list string)
    (coordinates : list (Q * Q)) :
  isdir files outputDir = true ->
  access_W files outputDir = true ->
  exists_ files (path_join (abspath outputDir) (layerName ++ ".shp")) = true ->
  writeBboxPolygonToShapefile files bbox outputDir layerName
  = Raise (Exception ("Shapefile " ++ layerName ++ ".shp"
                      ++ " already exists in directory " ++ abspath outputDir))
  /\ (List.length pointIDs = List.length coordinates ->
      writeCoordinatePairsToPointShapefile files outputDir layerName
        pointIDAttr pointIDs coordinates
      = Raise (Exception ("Shapefile " ++ layerName ++ ".shp"
                          ++ " already exists in directory "
                          ++ abspath outputDir))).
Proof.
  intros Hdir Hw Hex. split.
  - unfold writeBboxPolygonToShapefile. cbv zeta. unfold extsep.
    change ("." ++ "shp") with ".shp".
    rewrite Hdir, Hw, Hex. cbn [negb raise_unless bind].
    rewrite string_append_assoc. reflexivity.
  - intros Hlen. unfold writeCoordinatePairsToPointShapefile. cbv zeta.
    change ("." ++ "shp") with ".shp".
    rewrite Hlen, Nat.eqb_refl. cbn [assert bind].
    rewrite Hdir, Hw, Hex. cbn [negb raise_unless bind].
    rewrite string_append_assoc. reflexivity.
Qed.

Lemma shapefile_writers_never_overwrite_witness :
  writeBboxPolygonToShapefile project_files_with_outputs
    (mkBBox (-77) 39 (-76) 40 "EPSG:4326") "/proj" "gage"
  = Raise (Exception "Shapefile gage.shp already exists in directory /proj").
Proof.
  apply (proj1 (shapefile_writers_never_overwrite posix_oslib sample_ogr
                  sample_ogrpoints project_files_with_outputs
                  (mkBBox (-77) 39 (-76) 40 "EPSG:4326") "/proj" "gage"
                  "gage_id" [] [] eq_refl eq_refl eq_refl)).
Defined.

(** ** Runs of the two statements with inner hypotheses *)

Lemma tiling_ends_without_fresh_tiles_witness :
  tileBoundingBox 1 (mkBBox (-1) (-1) 1 1 "EPSG:4326") 100000000000
  = Some (Ok [mkBBox (-1) (-1) 1 1 "EPSG:4326"])
  /\ ([mkBBox (-1) (-1) 1 1 "EPSG:4326"] = [mkBBox (-1) (-1) 1 1 "EPSG:4326"]
      \/ [mkBBox (-1) (-1) 1 1 "EPSG:4326"] = []).
Proof.
  split; [reflexivity |].
  apply (proj2 (tiling_ends_without_fresh_tiles planar_pyproj decimal_runtime
                  0 (mkBBox (-1) (-1) 1 1 "EPSG:4326") 100000000000)).
  reflexivity.
Defined.

Lemma wire_form_needs_four_numbers_witness :
  bboxFromString "1 2 3 4 5" = Ok (mkBBox 1 2 3 4 "EPSG:4326").
Proof.
  apply (proj2 (wire_form_needs_four_numbers decimal_runtime "1 2 3 4 5"
                  (mkBBox 1 2 3 4 "EPSG:4326"))).
  exists "1", "2", "3", "4", ["5"], 1, 2, 3, 4.
  repeat split.
Defined.
